(** * Bath correlation functions (quantarhei.qm.corfunctions.correlationfunctions)

    A shallow embedding of the Python module and the properties its
    specification states about it.

    Conventions of the embedding:
    - double-precision numbers are idealised as real numbers ([R]): rounding
      is left out, the exceptions of Python's float arithmetic are kept.  The
      parameters and the Boltzmann constant are Python floats, so a division
      between them raises [ZeroDivisionError] on a zero divisor and a power
      [x ** 2] raises [OverflowError] when the square of a finite [x] leaves
      the double range; where a product of Python floats is used as a
      divisor, its underflow to zero is kept; operations carried out by
      numpy (on an array or on a numpy scalar) do not raise;
    - the reals have neither infinities nor nan: where numpy would divide
      by zero the embedding computes with [x / 0 = 0], and the theorems on
      the samples of the general Brownian type assume these divisors
      non-zero;
    - a numpy array is a list, arithmetic on arrays is elementwise;
    - an instance is its attribute dictionary ([gmap string pyval]): reading
      an attribute that was never assigned raises [AttributeError] (the
      classes define no data attribute besides [allowed_types]);
    - an exception is a value of [exn]; functions that may raise return a
      [result];
    - the process-wide current energy unit is passed explicitly;
    - the collaborators that are not part of the module (the Boltzmann
      constant, the units manager, the grid's [==], the Fourier transform,
      scipy's splines) are section variables. *)

From Stdlib Require Import Reals Lra.
From stdpp Require Import base option list strings gmap.

Local Open Scope R_scope.

(** ** Complex numbers (numpy.complex128, idealised) *)

Record complex : Type := mkC { Re : R; Im : R }.

Definition RtoC (x : R) : complex := mkC x 0.
Definition C0 : complex := RtoC 0.
Definition Ci : complex := mkC 0 1.
Definition Cadd (a b : complex) : complex := mkC (Re a + Re b) (Im a + Im b).
Definition Csub (a b : complex) : complex := mkC (Re a - Re b) (Im a - Im b).
Definition Cmul (a b : complex) : complex :=
  mkC (Re a * Re b - Im a * Im b) (Re a * Im b + Im a * Re b).

(** ** Exceptions and results *)

(** The exception classes the module can raise.  [Exception None] is the
    bare [raise Exception] / [raise Exception()], [Exception (Some m)] is
    [raise Exception(m)]. *)
Inductive exn : Type :=
| Exception (msg : option string)
| KeyError (key : string)
| AttributeError (attr : string)
| TypeError (what : string)
| ValueError (what : string)
| ZeroDivisionError
| OverflowError.

Inductive result (A : Type) : Type :=
| Ok (a : A)
| Raise (e : exn).
Arguments Ok {A} a.
Arguments Raise {A} e.

#[global] Instance result_ret : MRet result := fun A a => Ok a.
#[global] Instance result_bind : MBind result := fun A B f m =>
  match m with
  | Ok a => f a
  | Raise e => Raise e
  end.

(** [try: body  except: handler] with a bare [except]. *)
Definition try_except {A} (body : result A) (handler : exn -> result A)
  : result A :=
  match body with
  | Ok a => Ok a
  | Raise e => handler e
  end.

(** Division of two Python floats. *)
Definition float_div (x y : R) : result R :=
  if Req_dec_T y 0 then Raise ZeroDivisionError else Ok (x / y).

(** The double range: the least magnitude that rounds to infinity,
    [2^1024 - 2^970], and the greatest magnitude that rounds to zero,
    [2^-1075]. *)
Definition float_overflow : R := IZR (2 ^ 1024 - 2 ^ 970).
Definition float_underflow : R := / IZR (2 ^ 1075).

(** A product of two Python floats that is used as a divisor: a product
    too small for the double range is zero. *)
Definition float_mul (x y : R) : R :=
  if Rle_dec (Rabs (x * y)) float_underflow then 0 else x * y.

(** [x ** 2] for a Python float [x]: the square of an infinite [x] is
    infinite, the square of a finite [x] that leaves the double range
    raises. *)
Definition float_square (x : R) : result R :=
  if Rle_dec float_overflow (Rabs x) then Ok (x ^ 2)
  else if Rle_dec float_overflow (x ^ 2) then Raise OverflowError
  else Ok (x ^ 2).


(** ** numpy arrays *)

(** A one-dimensional float array is a [list R], a complex one a [list complex].
    Binary operations between arrays of equal shape act elementwise. *)
Definition arr_neg (t : list R) : list R := map Ropp t.
Definition arr_div_scalar (t : list R) (c : R) : list R :=
  map (fun x => x / c) t.
Definition arr_exp (t : list R) : list R := map exp t.
Definition scalar_mul_arr (c : R) (t : list R) : list R := map (Rmult c) t.
Definition cscalar_mul_arr (c : complex) (t : list R) : list complex :=
  map (fun y => Cmul c (RtoC y)) t.
Definition arr_sub_real_complex (a : list R) (b : list complex) : list complex :=
  zip_with (fun x z => Csub (RtoC x) z) a b.

(** A value that is either a Python float or a float array, with numpy's
    broadcasting of the float over the array. *)
Inductive nd : Type :=
| Scalar (x : R)
| Arr (a : list R).

Definition nd_add (u v : nd) : nd :=
  match u, v with
  | Scalar x, Scalar y => Scalar (x + y)
  | Scalar x, Arr b => Arr (map (fun y => x + y) b)
  | Arr a, Scalar y => Arr (map (fun x => x + y) a)
  | Arr a, Arr b => Arr (zip_with Rplus a b)
  end.

Definition nd_scale (c : R) (v : nd) : nd :=
  match v with
  | Scalar x => Scalar (c * x)
  | Arr a => Arr (scalar_mul_arr c a)
  end.

(** [cc += v] for a complex array [cc]. *)
Definition carr_iadd_nd (cc : list complex) (v : nd) : list complex :=
  match v with
  | Scalar x => map (fun z => Cadd z (RtoC x)) cc
  | Arr a => zip_with (fun z x => Cadd z (RtoC x)) cc a
  end.

(** [numpy.imag], [numpy.real] and [1j * a] on arrays. *)
Definition numpy_imag (a : list complex) : list R := map Im a.
Definition numpy_real (a : list complex) : list R := map Re a.
Definition j_mul_arr (a : list R) : list complex := cscalar_mul_arr Ci a.

(** ** The collaborators' data *)

(** Modelled from the spec: the grid class (core.time.TimeAxis) is not part
    of the module; section 6 of the specification says that a grid exposes
    the point array, its length and its maximum value. *)
Record TimeAxis : Type := mkTimeAxis {
  ta_data : list R;
  ta_tmax : R
}.

Definition ta_length (ax : TimeAxis) : nat := length (ta_data ax).

(** Modelled from the spec: the frequency grid (core.frequency.FrequencyAxis)
    is not part of the module; it is the complementary grid of a time grid
    and exposes its point array. *)
Record FrequencyAxis : Type := mkFrequencyAxis {
  fa_data : list R
}.

(** The parameter bag [params]: the keys the module reads, each one absent
    or holding a value of the type the constructor uses it at. *)
Record ParamBag : Type := mkParamBag {
  p_ftype : option string;
  p_T : option R;
  p_cortime : option R;
  p_reorg : option R;
  p_matsubara : option Z;
  p_cutoff_time : option R
}.

(** [params[key]] *)
Definition getitem {A} (key : string) (v : option A) : result A :=
  match v with
  | Some a => Ok a
  | None => Raise (KeyError key)
  end.

(** ** Instances as attribute dictionaries *)

Inductive pyval : Type :=
| PBool (b : bool)
| PStr (s : string)
| PFloat (x : R)
| PArray (a : list complex)
| PAxis (ax : TimeAxis)
| PFreqAxis (w : FrequencyAxis)
| PDict (p : ParamBag).

Abbreviation object := (gmap string pyval).

(** [o.name] *)
Definition getattr (o : object) (name : string) : result pyval :=
  match o !! name with
  | Some v => Ok v
  | None => Raise (AttributeError name)
  end.

(** [o.name = v] *)
Definition setattr (name : string) (v : pyval) (o : object) : object :=
  <[name := v]> o.

Definition as_float (v : pyval) : result R :=
  match v with
  | PFloat x => Ok x
  | _ => Raise (TypeError "float")
  end.

Definition as_str (v : pyval) : result string :=
  match v with
  | PStr s => Ok s
  | _ => Raise (TypeError "str")
  end.

Definition as_array (v : pyval) : result (list complex) :=
  match v with
  | PArray a => Ok a
  | _ => Raise (TypeError "ndarray")
  end.

Definition as_axis (v : pyval) : result TimeAxis :=
  match v with
  | PAxis ax => Ok ax
  | _ => Raise (TypeError "TimeAxis")
  end.

Definition as_dict (v : pyval) : result ParamBag :=
  match v with
  | PDict p => Ok p
  | _ => Raise (TypeError "dict")
  end.

(** ** class CorrelationFunction *)

Definition allowed_types : list string :=
  ["OverdampedBrownian-HighTemperature"; "OverdampedBrownian"; "Value-defined"].

(** Modelled from the spec: [DFunction._make_me] belongs to the tabulated
    function collaborator, which is not part of the module; it stores the
    grid and the sample sequence of the tabulated function. *)
Definition _make_me (x : TimeAxis) (y : list complex) (self : object) : object :=
  setattr "data" (PArray y) (setattr "axis" (PAxis x) self).

(** The [try: ... except: raise Exception] block that opens the constructor
    of each of the four classes: it records [ftype] and the current energy
    unit, and turns every exception raised inside it into a bare
    [Exception]. *)
Definition check_ftype (units : string) (params : ParamBag) (self : object)
  : result object :=
  try_except
    (ftype ← getitem "ftype" (p_ftype params);
     self ← (if bool_decide (ftype ∈ allowed_types)
             then Ok (setattr "ftype" (PStr ftype) self)
             else Raise (Exception (Some "Unknown Correlation Function Type")));
     Ok (setattr "energy_units" (PStr units) self))
    (fun _ => Raise (Exception None)).

Section Construction.

(** Boltzmann constant in internal units per Kelvin (core.units). *)
Variable kB_intK : R.

(** [self.manager.iu_energy(value, units=...)]: conversion of an energy
    given in the named units to internal units (core.managers). *)
Variable iu_energy : R -> string -> R.

(** The loop of [__matsubara]; [ms] is the accumulator, [range] the
    indices still to visit. *)
Fixpoint matsubara_loop (nu tc : R) (t : list R) (range : list nat)
    (ms : nd) : result nd :=
  match range with
  | [] => Ok ms
  | ii :: range' =>
      let nn := INR (ii + 1) in
      a ← float_square (nu * nn);
      itc ← float_div 1 tc;
      b ← float_square itc;
      let term :=
        arr_div_scalar
          (scalar_mul_arr (nu * nn)
             (arr_exp (scalar_mul_arr (- nu * nn) t)))
          (a - b) in
      matsubara_loop nu tc t range' (nd_add ms (Arr term))
  end.

Definition __matsubara (kBT tc : R) (N : Z) (t : list R) : result nd :=
  let ms := Scalar 0 in
  let nu := 2 * PI * kBT in
  matsubara_loop nu tc t (seq 0 (Z.to_nat N)) ms.

(** The branch of the constructor for the high-temperature type. *)
Definition init_high_temperature (units : string) (timeAxis : TimeAxis)
    (params : ParamBag) (self : object) : result object :=
  T ← getitem "T" (p_T params);
  tc ← getitem "cortime" (p_cortime params);
  reorg ← getitem "reorg" (p_reorg params);
  let lamb := iu_energy reorg units in
  let kBT := kB_intK * T in
  let t := ta_data timeAxis in
  let e := arr_exp (arr_div_scalar (arr_neg t) tc) in
  q ← float_div lamb tc;
  let cc := arr_sub_real_complex
              (scalar_mul_arr (2 * lamb * kBT) e)
              (cscalar_mul_arr (Cmul Ci (RtoC q)) e) in
  let self := _make_me timeAxis cc self in
  let self := setattr "lamb" (PFloat lamb) self in
  let self := setattr "T" (PFloat T) self in
  Ok (setattr "cutoff_time" (PFloat (5 * tc)) self).

(** The branch for the general overdamped Brownian oscillator. *)
Definition init_brownian (units : string) (timeAxis : TimeAxis)
    (params : ParamBag) (self : object) : result object :=
  T ← getitem "T" (p_T params);
  tc ← getitem "cortime" (p_cortime params);
  reorg ← getitem "reorg" (p_reorg params);
  let lamb := iu_energy reorg units in
  let N := match p_matsubara params with
           | Some n => n
           | None => 10%Z
           end in
  let kBT := float_mul kB_intK T in
  let t := ta_data timeAxis in
  x ← float_div 1 (float_mul (2 * kBT) tc);
  let e := arr_exp (arr_div_scalar (arr_neg t) tc) in
  q ← float_div lamb tc;
  let cc := arr_sub_real_complex
              (scalar_mul_arr (lamb / (tc * tan x)) e)
              (cscalar_mul_arr (Cmul Ci (RtoC q)) e) in
  pref ← float_div (4 * lamb * kBT) tc;
  ms ← __matsubara kBT tc N t;
  let cc := carr_iadd_nd cc (nd_scale pref ms) in
  let self := _make_me timeAxis cc self in
  let self := setattr "lamb" (PFloat lamb) self in
  let self := setattr "T" (PFloat T) self in
  Ok (setattr "cutoff_time" (PFloat (5 * tc)) self).

(** The branch for the value-defined type. *)
Definition init_value_defined (units : string) (timeAxis : TimeAxis)
    (params : ParamBag) (values : option (list complex)) (self : object)
    : result object :=
  reorg ← getitem "reorg" (p_reorg params);
  let lamb := iu_energy reorg units in
  let self := setattr "lamb" (PFloat lamb) self in
  let tcut := match p_cutoff_time params with
              | Some c => c
              | None => ta_tmax timeAxis
              end in
  let self := setattr "cutoff_time" (PFloat tcut) self in
  match values with
  | None => (* len(None) *)
      Raise (TypeError "object of type 'NoneType' has no len()")
  | Some v =>
      if bool_decide (length v = ta_length timeAxis)
      then Ok (setattr "data" (PArray v) self)
      else Raise (Exception (Some "Incompatible values"))
  end.

(** [CorrelationFunction.__init__]; [units] is the current energy unit of
    the units manager when the constructor runs, [values = None] and
    [domain = "Time"] are the defaults of the optional arguments. *)
Definition CorrelationFunction_init (units : string) (timeAxis : TimeAxis)
    (params : ParamBag) (values : option (list complex)) (domain : string)
    : result object :=
  let self := setattr "valueAxis" (PAxis timeAxis) ∅ in
  let self := setattr "timeAxis" (PAxis timeAxis) self in
  let self := setattr "params" (PDict params) self in
  let time_domain := bool_decide (domain = "Time") in
  let self := setattr "time_domain" (PBool time_domain) self in
  let self := setattr "is_composed" (PBool false) self in
  self ← check_ftype units params self;
  ftype ← getattr self "ftype" ≫= as_str;
  if bool_decide (ftype = "OverdampedBrownian-HighTemperature") && time_domain
  then init_high_temperature units timeAxis params self
  else if bool_decide (ftype = "OverdampedBrownian")
  then init_brownian units timeAxis params self
  else if bool_decide (ftype = "Value-defined") && time_domain
  then init_value_defined units timeAxis params values self
  else
    Raise (Exception
      (Some "Unknown correlation function type oftype domain combination.")).

End Construction.

Section Methods.

Variable kB_intK : R.
Variable iu_energy : R -> string -> R.

(** [==] of the grid class. *)
Variable TimeAxis_eq : TimeAxis -> TimeAxis -> bool.

(** [CorrelationFunction.get_temperature] *)
Definition get_temperature (self : object) : result pyval :=
  getattr self "T".

(** [v.name] for a value [v] held in an attribute of an instance.  No
    attribute of an instance holds another instance, and neither a grid
    nor a number, string, array or dictionary has attributes of the names
    the module asks for. *)
Definition value_getattr (v : pyval) (name : string) : result pyval :=
  Raise (AttributeError name).

(** [numpy]'s [a += b] on arrays. *)
Definition carr_iadd (a b : list complex) : result (list complex) :=
  if bool_decide (length a = length b)
  then Ok (zip_with Cadd a b)
  else Raise (ValueError "operands could not be broadcast together").

(** [CorrelationFunction.add]: the state of [self] after the call. *)
Definition add (self cf : object) : result object :=
  ta ← getattr self "timeAxis" ≫= as_axis;
  cf_self ← getattr cf "self";
  cta ← value_getattr cf_self "timeAxis" ≫= as_axis;
  if TimeAxis_eq ta cta then
    T1 ← getattr self "T" ≫= as_float;
    T2 ← getattr cf "T" ≫= as_float;
    if Req_dec_T T1 T2 then
      l1 ← getattr self "lamb" ≫= as_float;
      l2 ← getattr cf "lamb" ≫= as_float;
      let self := setattr "lamb" (PFloat (l1 + l2)) self in
      d1 ← getattr self "data" ≫= as_array;
      d2 ← getattr cf "data" ≫= as_array;
      d ← carr_iadd d1 d2;
      let self := setattr "data" (PArray d) self in
      c1 ← getattr self "cutoff_time" ≫= as_float;
      c2 ← getattr cf "cutoff_time" ≫= as_float;
      let self := if Rlt_dec c1 c2
                  then setattr "cutoff_time" (PFloat c2) self
                  else self in
      Ok (setattr "is_composed" (PBool true) self)
    else Raise (Exception None)
  else Raise (Exception None).

(** [CorrelationFunction.copy]; [units] is the current energy unit when
    [copy] is called. *)
Definition copy (units : string) (self : object) : result object :=
  ta ← getattr self "timeAxis" ≫= as_axis;
  params ← getattr self "params" ≫= as_dict;
  CorrelationFunction_init kB_intK iu_energy units ta params None "Time".

End Methods.

(** The instance as the opening of the constructor leaves it when the type
    tag [ftype] is accepted. *)
Definition validated (units : string) (timeAxis : TimeAxis) (params : ParamBag)
    (domain ftype : string) : object :=
  setattr "energy_units" (PStr units)
    (setattr "ftype" (PStr ftype)
      (setattr "is_composed" (PBool false)
        (setattr "time_domain" (PBool (bool_decide (domain = "Time")))
          (setattr "params" (PDict params)
            (setattr "timeAxis" (PAxis timeAxis)
              (setattr "valueAxis" (PAxis timeAxis) ∅)))))).

(** The instances the constructor can return: one shape for each branch.
    [cc] stands for the sample array of an analytic type. *)
Inductive constructed (iu_energy : R -> string -> R) (units : string)
    (timeAxis : TimeAxis) (params : ParamBag) (values : option (list complex))
    (domain : string) : object -> Prop :=
| constructed_analytic ftype T tc reorg cc :
    p_ftype params = Some ftype ->
    ftype = "OverdampedBrownian-HighTemperature" /\ domain = "Time"
      \/ ftype = "OverdampedBrownian" ->
    p_T params = Some T ->
    p_cortime params = Some tc ->
    p_reorg params = Some reorg ->
    tc <> 0 ->
    length cc = ta_length timeAxis ->
    constructed iu_energy units timeAxis params values domain
      (setattr "cutoff_time" (PFloat (5 * tc))
        (setattr "T" (PFloat T)
          (setattr "lamb" (PFloat (iu_energy reorg units))
            (_make_me timeAxis cc
              (validated units timeAxis params domain ftype)))))
| constructed_value_defined reorg v :
    p_ftype params = Some "Value-defined" ->
    domain = "Time" ->
    p_reorg params = Some reorg ->
    values = Some v ->
    length v = ta_length timeAxis ->
    constructed iu_energy units timeAxis params values domain
      (setattr "data" (PArray v)
        (setattr "cutoff_time"
           (PFloat (match p_cutoff_time params with
                    | Some c => c
                    | None => ta_tmax timeAxis
                    end))
          (setattr "lamb" (PFloat (iu_energy reorg units))
            (validated units timeAxis params domain "Value-defined")))).

(** ** The frequency-domain classes *)

Section Spectral.

Variable kB_intK : R.
Variable iu_energy : R -> string -> R.

(** The Fourier transform primitive of the tabulated function
    collaborator: from the current energy unit, the time grid and the
    samples to the frequency grid and the transformed samples. *)
Variable Fourier_transform :
  string -> TimeAxis -> list complex -> FrequencyAxis * list complex.

(** Modelled from the spec: [DFunction.get_Fourier_transform] is not part
    of the module; it transforms the tabulated function held by the
    instance (its grid [axis] and its samples [data]) and returns a
    tabulated function over the corresponding frequency grid. *)
Definition get_Fourier_transform (units : string) (cf : object)
  : result (FrequencyAxis * list complex) :=
  ax ← getattr cf "axis" ≫= as_axis;
  d ← getattr cf "data" ≫= as_array;
  Ok (Fourier_transform units ax d).

(** The part the three constructors share after the symmetrization:
    [self.params = params], the transform under internal units, and the
    storing of its grid and samples. *)
Definition store_transform (params : ParamBag) (cf self : object)
  : result object :=
  let self := setattr "params" (PDict params) self in
  ftvals ← get_Fourier_transform "int" cf;
  let self := setattr "data" (PArray (snd ftvals)) self in
  let self := setattr "axis" (PFreqAxis (fst ftvals)) self in
  Ok (setattr "frequencyAxis" (PFreqAxis (fst ftvals)) self).

(** [FTCorrelationFunction.__init__] *)
Definition FTCorrelationFunction_init (units : string) (axis : TimeAxis)
    (params : ParamBag) : result object :=
  self ← check_ftype units params ∅;
  energy_units ← getattr self "energy_units" ≫= as_str;
  cf ← CorrelationFunction_init kB_intK iu_energy energy_units axis params
         None "Time";
  store_transform params cf self.

(** [OddFTCorrelationFunction.__init__] *)
Definition OddFTCorrelationFunction_init (units : string) (axis : TimeAxis)
    (params : ParamBag) : result object :=
  self ← check_ftype units params ∅;
  energy_units ← getattr self "energy_units" ≫= as_str;
  cf ← CorrelationFunction_init kB_intK iu_energy energy_units axis params
         None "Time";
  data ← getattr cf "data" ≫= as_array;
  let cf := setattr "data" (PArray (j_mul_arr (numpy_imag data))) cf in
  store_transform params cf self.

(** [EvenFTCorrelationFunction.__init__] *)
Definition EvenFTCorrelationFunction_init (units : string) (axis : TimeAxis)
    (params : ParamBag) : result object :=
  self ← check_ftype units params ∅;
  energy_units ← getattr self "energy_units" ≫= as_str;
  cf ← CorrelationFunction_init kB_intK iu_energy energy_units axis params
         None "Time";
  data ← getattr cf "data" ≫= as_array;
  let cf := setattr "data" (PArray (map RtoC (numpy_real data))) cf in
  store_transform params cf self.

End Spectral.

(** ** The integration transforms *)

Section Integration.

(** [scipy.interpolate.UnivariateSpline]: the spline objects, the
    constructor [UnivariateSpline(x, y, s=s)] (degree 3 by default; it
    raises on data it cannot fit), the method [antiderivative()] and the
    evaluation of a spline on an array of abscissae. *)
Variable spline : Type.
Variable UnivariateSpline : list R -> list R -> R -> result spline.
Variable antiderivative : spline -> spline.
Variable spline_call : spline -> list R -> list R.

(** One integration pass: the interpolating spline with zero smoothing
    through the data, its antiderivative, evaluated at the grid points. *)
Definition spline_integral (x y : list R) : result (list R) :=
  s ← UnivariateSpline x y 0;
  Ok (spline_call (antiderivative s) x).

(** [real + 1j * imag] on two float arrays. *)
Definition arr_complex (sr si : list R) : list complex :=
  zip_with (fun x y => Cadd (RtoC x) (Cmul Ci (RtoC y))) sr si.

Definition c2g (timeaxis : TimeAxis) (coft : list complex) : result (list complex) :=
  let ta := timeaxis in
  let rr := numpy_real coft in
  let ri := numpy_imag coft in
  sr ← (s ← UnivariateSpline (ta_data ta) rr 0;
        Ok (spline_call (antiderivative s) (ta_data ta)));
  sr ← (s ← UnivariateSpline (ta_data ta) sr 0;
        Ok (spline_call (antiderivative s) (ta_data ta)));
  si ← (s ← UnivariateSpline (ta_data ta) ri 0;
        Ok (spline_call (antiderivative s) (ta_data ta)));
  si ← (s ← UnivariateSpline (ta_data ta) si 0;
        Ok (spline_call (antiderivative s) (ta_data ta)));
  let gt := arr_complex sr si in
  Ok gt.

Definition c2h (timeaxis : TimeAxis) (coft : list complex) : result (list complex) :=
  let ta := timeaxis in
  let rr := numpy_real coft in
  let ri := numpy_imag coft in
  sr ← (s ← UnivariateSpline (ta_data ta) rr 0;
        Ok (spline_call (antiderivative s) (ta_data ta)));
  si ← (s ← UnivariateSpline (ta_data ta) ri 0;
        Ok (spline_call (antiderivative s) (ta_data ta)));
  let ht := arr_complex sr si in
  Ok ht.

Definition h2g (timeaxis : TimeAxis) (coft : list complex) : result (list complex) :=
  c2h timeaxis coft.

End Integration.

Arguments spline_integral {spline} _ _ _ _ _.
Arguments c2g {spline} _ _ _ _ _.
Arguments c2h {spline} _ _ _ _ _.
Arguments h2g {spline} _ _ _ _ _.

(** ** The formulas and the error taxonomy of the specification *)


Definition cot (x : R) : R := cos x / sin x.

(** The [n]-th Matsubara term [nu n exp(-nu n t) / ((nu n)^2 - (1/tc)^2)]. *)
Definition matsubara_term (nu tc t : R) (n : nat) : R :=
  nu * INR n * exp (- (nu * INR n * t)) / ((nu * INR n) ^ 2 - (1 / tc) ^ 2).

(** The sum of the terms [1 .. N], accumulated in this order. *)
Fixpoint matsubara_sum (nu tc t : R) (N : nat) : R :=
  match N with
  | O => 0
  | S n => matsubara_sum nu tc t n + matsubara_term nu tc t (S n)
  end.

(** [(lambda/tc) cot(1/(2 kB T tc)) exp(-t/tc) - i (lambda/tc) exp(-t/tc)
     + (4 lambda kB T/tc) sum_(n=1..N) ...] with [nu = 2 pi kB T]. *)
Definition brownian_formula (lamb kB T tc : R) (N : nat) (t : R) : complex :=
  Cadd
    (Csub (RtoC (lamb / tc * cot (1 / (2 * kB * T * tc)) * exp (- t / tc)))
          (Cmul Ci (RtoC (lamb / tc * exp (- t / tc)))))
    (RtoC (4 * lamb * kB * T / tc * matsubara_sum (2 * PI * kB * T) tc t N)).

(** A float-or-array value [v] holds, over the grid [t], the values of the
    function [f]. *)
Definition nd_represents (t : list R) (v : nd) (f : R -> R) : Prop :=
  match v with
  | Scalar x => forall y, y ∈ t -> f y = x
  | Arr a => a = map f t
  end.

(** The squares of the Matsubara loop and the divisor of the cotangent
    argument stay inside the double range. *)
Definition square_in_range (x : R) : Prop := x ^ 2 < float_overflow.

Definition brownian_in_range (kB T tc : R) (N : nat) : Prop :=
  float_underflow < Rabs (kB * T)
  /\ float_underflow < Rabs (2 * (kB * T) * tc)
  /\ ((0 < N)%nat -> square_in_range (1 / tc))
  /\ forall n, (1 <= n <= N)%nat ->
       square_in_range (2 * PI * (kB * T) * INR n).

(** The order of the Matsubara sum: the [matsubara] entry, 10 without it. *)
Definition matsubara_order (p : ParamBag) : nat :=
  match p_matsubara p with
  | Some n => Z.to_nat n
  | None => 10%nat
  end.



(** The module raises plain Python exceptions; the specification names the
    failures by their cause.  A configuration error is the bare [Exception]
    of the opening [try] block, the [Exception] of the final [else] of the
    constructor, or the [KeyError] of a parameter that is not in the bag. *)
Definition unknown_combination : string :=
  "Unknown correlation function type oftype domain combination.".


(** The length check of the value-defined branch. *)
Definition ShapeMismatchError (e : exn) : Prop :=
  e = Exception (Some "Incompatible values").

(** The [else: raise Exception()] of [add]. *)
Definition IncompatibleOperandError (e : exn) : Prop :=
  e = Exception None.

Definition analytic (ftype : string) : Prop :=
  ftype = "OverdampedBrownian-HighTemperature" \/ ftype = "OverdampedBrownian".

(** The all-zero sample sequences. *)
Definition all_zero (d : list complex) : Prop := Forall (fun z => z = C0) d.
Definition purely_real (d : list complex) : Prop := Forall (fun z => Im z = 0) d.
Definition purely_imaginary (d : list complex) : Prop := Forall (fun z => Re z = 0) d.

(** ** Concrete collaborators and inputs *)

(** The Boltzmann constant in internal units per Kelvin, to four digits:
    1.309e-4. *)
Definition kB_sample : R := 1309 / 10000000.

(** A units manager that knows the internal unit and the wavenumber. *)
Definition iu_energy_sample (value : R) (units : string) : R :=
  if bool_decide (units = "1/cm")
  then value * (18836516 / 100000000000)
  else value.

#[global] Instance R_eq_dec : EqDecision R := Req_dec_T.
#[global] Instance TimeAxis_eq_dec : EqDecision TimeAxis.
Proof. solve_decision. Defined.

(** Grids compare equal when they hold the same points. *)
Definition same_grid (a b : TimeAxis) : bool := bool_decide (a = b).

Definition grid3 : TimeAxis := mkTimeAxis [0; 1; 2] 2.
Definition grid4 : TimeAxis := mkTimeAxis [0; 1; 2; 3] 3.

Definition params_high_temperature : ParamBag :=
  mkParamBag (Some "OverdampedBrownian-HighTemperature")
    (Some 300) (Some 100) (Some 20) None None.

Definition params_brownian : ParamBag :=
  mkParamBag (Some "OverdampedBrownian")
    (Some 300) (Some 100) (Some 20) None None.

Definition params_value_defined : ParamBag :=
  mkParamBag (Some "Value-defined")
    (Some 300) (Some 100) (Some 20) None None.

(** Three caller-supplied samples for [grid3]. *)
Definition three_values : list complex := [mkC 1 0; mkC 2 (-1); mkC 0 3].

(** A bag whose reorganization energy is zero: its samples vanish. *)
Definition params_no_coupling : ParamBag :=
  mkParamBag (Some "OverdampedBrownian-HighTemperature")
    (Some 300) (Some 100) (Some 0) None None.

(** Modelled from the spec: the Fourier transform of the tabulated function
    collaborator is not part of the module; section 6 of the specification
    describes it as the standard discrete transform with symmetry rotation
    to ascending frequency order and normalization by the grid spacing. *)
Definition cis (x : R) : complex := mkC (cos x) (sin x).

Definition Csum (l : list complex) : complex := foldr Cadd C0 l.

Definition dft_coefficient (d : list complex) (k : nat) : complex :=
  Csum (imap (fun n z =>
                Cmul z (cis (- (2 * PI * INR k * INR n / INR (length d))))) d).

Definition fftshift {A} (l : list A) : list A :=
  let h := (length l - length l / 2)%nat in
  drop h l ++ take h l.

Definition grid_step (ax : TimeAxis) : R :=
  match ta_data ax with
  | t0 :: t1 :: _ => t1 - t0
  | _ => 0
  end.

Definition frequency_grid (ax : TimeAxis) : FrequencyAxis :=
  let n := ta_length ax in
  mkFrequencyAxis
    (map (fun k => 2 * PI * (INR k - INR (n / 2)) / (INR n * grid_step ax))
         (seq 0 n)).

Definition discrete_Fourier_transform (units : string) (ax : TimeAxis)
    (d : list complex) : FrequencyAxis * list complex :=
  (frequency_grid ax,
   map (Cmul (RtoC (grid_step ax)))
       (fftshift (map (dft_coefficient d) (seq 0 (length d))))).

(** A spline fit for grids of four points, where the interpolating cubic
    spline has no interior knot: it is the cubic through the four points.
    Polynomials are lists of coefficients, lowest degree first. *)
Fixpoint padd (p q : list R) : list R :=
  match p, q with
  | [], _ => q
  | _, [] => p
  | a :: p', b :: q' => (a + b) :: padd p' q'
  end.

Definition pscale (c : R) (p : list R) : list R := map (Rmult c) p.

(** [(x - a) * p] *)
Definition pmul_linear (a : R) (p : list R) : list R :=
  padd (0 :: p) (pscale (- a) p).

Fixpoint peval (p : list R) (x : R) : R :=
  match p with
  | [] => 0
  | c :: p' => c + x * peval p' x
  end.

(** The antiderivative without constant term. *)
Definition pint (p : list R) : list R :=
  0 :: imap (fun i c => c / INR (S i)) p.

(** The [j]-th Lagrange basis polynomial of the nodes [xs]. *)
Definition lagrange_basis (xs : list R) (j : nat) (xj : R) : list R :=
  foldr (fun mx acc =>
           if Nat.eqb (fst mx) j then acc
           else pscale (/ (xj - snd mx)) (pmul_linear (snd mx) acc))
        [1] (imap pair xs).

Definition interpolate (xs ys : list R) : list R :=
  foldr padd []
    (imap (fun j xy => pscale (snd xy) (lagrange_basis xs j (fst xy)))
          (zip xs ys)).

Record cubic : Type := mkCubic {
  cubic_poly : list R;
  cubic_left : R
}.

Definition cubic_fit (x y : list R) (s : R) : result cubic :=
  if bool_decide (length x = 4%nat /\ length y = 4%nat)
  then Ok (mkCubic (interpolate x y) (hd 0 x))
  else Raise (ValueError "four data points expected").

(** The antiderivative that vanishes at the left end of the grid. *)
Definition cubic_antiderivative (c : cubic) : cubic :=
  let F := pint (cubic_poly c) in
  mkCubic (padd [- peval F (cubic_left c)] F) (cubic_left c).

Definition cubic_call (c : cubic) (xs : list R) : list R :=
  map (peval (cubic_poly c)) xs.

(** The polynomials all of whose coefficients vanish. *)
Definition pzero (p : list R) : Prop := Forall (fun c => c = 0) p.

(** A call that raises an exception of a given kind. *)
Definition raises {A} (r : result A) (P : exn -> Prop) : Prop :=
  exists e, r = Raise e /\ P e.

(** ** The getters of the frequency-domain objects *)

Section Getters.
Variable kB_intK : R.
Variable iu_energy : R -> string -> R.
Variable Fourier_transform :
  string -> TimeAxis -> list complex -> FrequencyAxis * list complex.

(** [CorrelationFunction.get_FTCorrelationFunction]: the frequency-domain
    object is built with the energy unit recorded by the instance as the
    current unit. *)
Definition get_FTCorrelationFunction (self : object) : result object :=
  energy_units ← getattr self "energy_units" ≫= as_str;
  axis ← getattr self "axis" ≫= as_axis;
  params ← getattr self "params" ≫= as_dict;
  FTCorrelationFunction_init kB_intK iu_energy Fourier_transform
    energy_units axis params.

Definition get_OddFTCorrelationFunction (self : object) : result object :=
  energy_units ← getattr self "energy_units" ≫= as_str;
  axis ← getattr self "axis" ≫= as_axis;
  params ← getattr self "params" ≫= as_dict;
  OddFTCorrelationFunction_init kB_intK iu_energy Fourier_transform
    energy_units axis params.

Definition get_EvenFTCorrelationFunction (self : object) : result object :=
  energy_units ← getattr self "energy_units" ≫= as_str;
  axis ← getattr self "axis" ≫= as_axis;
  params ← getattr self "params" ≫= as_dict;
  EvenFTCorrelationFunction_init kB_intK iu_energy Fourier_transform
    energy_units axis params.
End Getters.

(** A transform that maps the sum of two sample sequences of one length to
    the sum of their transforms. *)
Definition additive_transform
    (Fourier_transform :
       string -> TimeAxis -> list complex -> FrequencyAxis * list complex)
  : Prop :=
  forall units ax a b, length a = length b ->
    snd (Fourier_transform units ax (zip_with Cadd a b))
    = zip_with Cadd (snd (Fourier_transform units ax a))
                    (snd (Fourier_transform units ax b)).

(** The exceptions that can leave the constructor. *)
Definition constructor_exception (e : exn) : Prop :=
  e = Exception None
  \/ e = KeyError "T" \/ e = KeyError "cortime" \/ e = KeyError "reorg"
  \/ e = ZeroDivisionError
  \/ e = OverflowError
  \/ e = TypeError "object of type 'NoneType' has no len()"
  \/ e = Exception (Some "Incompatible values")
  \/ e = Exception (Some unknown_combination).




(** A bag without temperature. *)
Definition params_no_temperature : ParamBag :=
  mkParamBag (Some "OverdampedBrownian-HighTemperature")
    None (Some 100) (Some 20) None None.

(** * Properties *)

(** ** Arithmetic, arrays and attribute dictionaries *)

Lemma complex_eq (a b : complex) : Re a = Re b -> Im a = Im b -> a = b.
Proof. destruct a, b; simpl; intros -> ->; reflexivity. Qed.

Lemma float_div_ok (x y : R) : y <> 0 -> float_div x y = Ok (x / y).
Proof.
  intros H. unfold float_div.
  destruct (Req_dec_T y 0); [contradiction | reflexivity].
Qed.


Lemma zip_with_map_map {A B D E} (f : B -> D -> E) (g : A -> B) (h : A -> D)
    (l : list A) :
  zip_with f (map g l) (map h l) = map (fun x => f (g x) (h x)) l.
Proof. induction l as [|x l IH]; simpl; [reflexivity | now rewrite IH]. Qed.

Lemma map_ext_elem {A B} (f g : A -> B) (l : list A) :
  (forall x, x ∈ l -> f x = g x) -> map f l = map g l.
Proof.
  intros H. apply map_ext_in. intros x Hx. apply H. now apply list_elem_of_In.
Qed.

(** Lookups in a dictionary built by a chain of assignments. *)
Ltac attrs :=
  unfold getattr, setattr, _make_me;
  repeat first
    [ rewrite lookup_insert_eq
    | rewrite lookup_insert_ne by done
    | rewrite lookup_empty ].

(** The tests on type tags and domains that are decided by the strings. *)
Ltac branches :=
  cbv zeta;
  repeat first
    [ rewrite bool_decide_eq_true_2 by done
    | rewrite bool_decide_eq_false_2 by done ];
  cbn [andb].

(** ** The opening [try] block *)

Lemma check_ftype_ok units params self f :
  p_ftype params = Some f -> f ∈ allowed_types ->
  check_ftype units params self
  = Ok (setattr "energy_units" (PStr units) (setattr "ftype" (PStr f) self)).
Proof.
  intros Hf Hin. unfold check_ftype. rewrite Hf. simpl.
  rewrite bool_decide_eq_true_2 by exact Hin. reflexivity.
Qed.

Lemma check_ftype_missing units params self :
  p_ftype params = None ->
  check_ftype units params self = Raise (Exception None).
Proof. intros Hf. unfold check_ftype. rewrite Hf. reflexivity. Qed.

Lemma check_ftype_unknown units params self f :
  p_ftype params = Some f -> f ∉ allowed_types ->
  check_ftype units params self = Raise (Exception None).
Proof.
  intros Hf Hin. unfold check_ftype. rewrite Hf. simpl.
  rewrite bool_decide_eq_false_2 by exact Hin. reflexivity.
Qed.

(** ** The Matsubara loop *)

Lemma cot_tan (lamb tc x : R) : lamb / (tc * tan x) = lamb / tc * cot x.
Proof. unfold tan, cot, Rdiv. rewrite !Rinv_mult, Rinv_inv. ring. Qed.

Lemma matsubara_term_array nu tc t ii :
  tc <> 0 ->
  arr_div_scalar
    (scalar_mul_arr (nu * INR (ii + 1))
       (arr_exp (scalar_mul_arr (- nu * INR (ii + 1)) t)))
    ((nu * INR (ii + 1)) ^ 2 - (1 / tc) ^ 2)
  = map (fun x => matsubara_term nu tc x (S ii)) t.
Proof.
  intros Htc. unfold arr_div_scalar, scalar_mul_arr, arr_exp.
  rewrite !map_map. apply map_ext. intros x. unfold matsubara_term.
  rewrite Nat.add_1_r. f_equal. f_equal. f_equal. ring.
Qed.

Lemma nd_add_represents t ms f g :
  nd_represents t ms f ->
  nd_represents t (nd_add ms (Arr (map g t))) (fun x => f x + g x).
Proof.
  destruct ms as [x|a]; simpl.
  - intros H. rewrite map_map. apply map_ext_elem. intros y Hy.
    now rewrite H.
  - intros ->. apply zip_with_map_map.
Qed.

Lemma float_underflow_pos : 0 < float_underflow.
Proof.
  unfold float_underflow. apply Rinv_0_lt_compat. apply (IZR_lt 0).
  reflexivity.
Qed.

Lemma float_underflow_small : float_underflow < / IZR (10 ^ 300).
Proof.
  unfold float_underflow. apply Rinv_lt_contravar.
  - apply Rmult_lt_0_compat; apply (IZR_lt 0); reflexivity.
  - apply IZR_lt. reflexivity.
Qed.

Lemma float_overflow_large : IZR (10 ^ 300) < float_overflow.
Proof. unfold float_overflow. apply IZR_lt. reflexivity. Qed.


Lemma float_square_ok (x : R) :
  square_in_range x -> float_square x = Ok (x ^ 2).
Proof.
  unfold square_in_range, float_square. intros H.
  destruct (Rle_dec float_overflow (Rabs x)); [reflexivity|].
  destruct (Rle_dec float_overflow (x ^ 2)); [lra | reflexivity].
Qed.

Lemma float_mul_ok (x y : R) :
  float_underflow < Rabs (x * y) -> float_mul x y = x * y.
Proof.
  unfold float_mul. intros H.
  destruct (Rle_dec (Rabs (x * y)) float_underflow); [lra | reflexivity].
Qed.

(** Started on the partial sum of the first [a] terms, the loop over the
    indices [a .. a+n-1] ends on the partial sum of the first [a+n], when
    no square leaves the double range. *)
Lemma matsubara_loop_spec nu tc t n :
  tc <> 0 -> ((0 < n)%nat -> square_in_range (1 / tc)) -> forall a ms,
  (forall k, (a < k <= a + n)%nat -> square_in_range (nu * INR k)) ->
  nd_represents t ms (fun x => matsubara_sum nu tc x a) ->
  exists ms', matsubara_loop nu tc t (seq a n) ms = Ok ms'
    /\ nd_represents t ms' (fun x => matsubara_sum nu tc x (a + n)).
Proof.
  intros Htc. induction n as [|n IH]; intros Hitc a ms Hnu Hms.
  - exists ms. rewrite Nat.add_0_r. split; [reflexivity | exact Hms].
  - cbn [seq matsubara_loop].
    rewrite float_square_ok by (apply Hnu; lia). cbn [mbind result_bind].
    rewrite float_div_ok by exact Htc. cbn [mbind result_bind].
    rewrite float_square_ok by (apply Hitc; lia). cbn [mbind result_bind].
    rewrite matsubara_term_array by exact Htc.
    replace (a + S n)%nat with (S a + n)%nat by lia.
    apply IH.
    + intros _. apply Hitc. lia.
    + intros k Hk. apply Hnu. lia.
    + apply (nd_add_represents _ _ _ _ Hms).
Qed.

Lemma matsubara_spec kBT tc N t :
  tc <> 0 ->
  ((0 < Z.to_nat N)%nat -> square_in_range (1 / tc)) ->
  (forall n, (1 <= n <= Z.to_nat N)%nat ->
     square_in_range (2 * PI * kBT * INR n)) ->
  exists ms, __matsubara kBT tc N t = Ok ms
    /\ nd_represents t ms
         (fun x => matsubara_sum (2 * PI * kBT) tc x (Z.to_nat N)).
Proof.
  intros Htc Hitc Hnu. unfold __matsubara.
  apply (matsubara_loop_spec _ _ _ _ Htc Hitc 0%nat).
  - intros k Hk. apply Hnu. lia.
  - simpl. reflexivity.
Qed.

Lemma carr_iadd_nd_represents (t : list R) (g : R -> complex) c ms f :
  nd_represents t ms f ->
  carr_iadd_nd (map g t) (nd_scale c ms)
  = map (fun x => Cadd (g x) (RtoC (c * f x))) t.
Proof.
  destruct ms as [x|a]; simpl.
  - intros H. rewrite map_map. apply map_ext_elem. intros y Hy.
    now rewrite H.
  - intros ->. unfold scalar_mul_arr. rewrite map_map.
    apply (zip_with_map_map (fun z x => Cadd z (RtoC x))).
Qed.

(** ** The sample arrays of the two analytic types *)

Lemma high_temperature_array lamb kBT tc t :
  arr_sub_real_complex
    (scalar_mul_arr (2 * lamb * kBT) (arr_exp (arr_div_scalar (arr_neg t) tc)))
    (cscalar_mul_arr (Cmul Ci (RtoC (lamb / tc)))
       (arr_exp (arr_div_scalar (arr_neg t) tc)))
  = map (fun x => mkC (2 * lamb * kBT * exp (- x / tc))
                      (- (lamb / tc * exp (- x / tc)))) t.
Proof.
  unfold arr_sub_real_complex, scalar_mul_arr, cscalar_mul_arr, arr_exp,
    arr_div_scalar, arr_neg.
  rewrite !map_map, zip_with_map_map. apply map_ext. intros x.
  apply complex_eq; simpl; ring.
Qed.

Lemma brownian_array lamb tc x t :
  arr_sub_real_complex
    (scalar_mul_arr (lamb / (tc * tan x))
       (arr_exp (arr_div_scalar (arr_neg t) tc)))
    (cscalar_mul_arr (Cmul Ci (RtoC (lamb / tc)))
       (arr_exp (arr_div_scalar (arr_neg t) tc)))
  = map (fun y => mkC (lamb / tc * cot x * exp (- y / tc))
                      (- (lamb / tc * exp (- y / tc)))) t.
Proof.
  unfold arr_sub_real_complex, scalar_mul_arr, cscalar_mul_arr, arr_exp,
    arr_div_scalar, arr_neg.
  rewrite !map_map, zip_with_map_map. apply map_ext. intros y.
  rewrite cot_tan. apply complex_eq; simpl; ring.
Qed.

(** ** The constructor *)

Section ConstructionFacts.
Variable kB_intK : R.
Variable iu_energy : R -> string -> R.

Lemma init_dispatch units ax p v dom f :
  p_ftype p = Some f -> f ∈ allowed_types ->
  CorrelationFunction_init kB_intK iu_energy units ax p v dom =
  let self := validated units ax p dom f in
  let time_domain := bool_decide (dom = "Time") in
    if bool_decide (f = "OverdampedBrownian-HighTemperature") && time_domain
    then init_high_temperature kB_intK iu_energy units ax p self
    else if bool_decide (f = "OverdampedBrownian")
    then init_brownian kB_intK iu_energy units ax p self
    else if bool_decide (f = "Value-defined") && time_domain
    then init_value_defined iu_energy units ax p v self
    else Raise (Exception (Some unknown_combination)).
Proof.
  intros Hf Hin. unfold CorrelationFunction_init.
  erewrite check_ftype_ok by eassumption.
  cbn [mbind result_bind]. attrs. reflexivity.
Qed.

Lemma float_div_inv x y q : float_div x y = Ok q -> y <> 0 /\ q = x / y.
Proof.
  unfold float_div. destruct (Req_dec_T y 0); [discriminate|].
  intros [= <-]. split; [assumption | reflexivity].
Qed.

Lemma length_sub_real_complex (a : list R) (b : list complex) :
  length a = length b -> length (arr_sub_real_complex a b) = length a.
Proof. intros H. unfold arr_sub_real_complex. rewrite length_zip_with. lia. Qed.

Lemma matsubara_loop_shape nu tc t range : forall ms ms',
  match ms with Scalar _ => True | Arr a => length a = length t end ->
  matsubara_loop nu tc t range ms = Ok ms' ->
  match ms' with Scalar _ => True | Arr a => length a = length t end.
Proof.
  induction range as [|ii range IH]; intros ms ms' Hms; cbn [matsubara_loop].
  - intros [= <-]. exact Hms.
  - destruct (float_square _) as [sq|]; cbn [mbind result_bind];
      [|discriminate].
    destruct (float_div 1 tc) as [itc|]; cbn [mbind result_bind];
      [|discriminate].
    destruct (float_square itc) as [sq'|]; cbn [mbind result_bind];
      [|discriminate].
    apply IH.
    unfold arr_div_scalar, scalar_mul_arr, arr_exp.
    destruct ms as [x|a]; simpl.
    + now rewrite !length_map.
    + rewrite length_zip_with, !length_map. lia.
Qed.

Lemma length_carr_iadd_nd cc v (n : nat) :
  length cc = n ->
  match v with Scalar _ => True | Arr a => length a = n end ->
  length (carr_iadd_nd cc v) = n.
Proof.
  destruct v as [x|a]; simpl; intros Hc Hv.
  - now rewrite length_map.
  - rewrite length_zip_with. lia.
Qed.

Lemma analytic_base_length (c : R) (q : complex) (t : list R) tc :
  length (arr_sub_real_complex
            (scalar_mul_arr c (arr_exp (arr_div_scalar (arr_neg t) tc)))
            (cscalar_mul_arr q (arr_exp (arr_div_scalar (arr_neg t) tc))))
  = length t.
Proof.
  unfold arr_sub_real_complex, scalar_mul_arr, cscalar_mul_arr, arr_exp,
    arr_div_scalar, arr_neg.
  rewrite length_zip_with, !length_map. lia.
Qed.

Lemma init_brownian_constructed units ax p values dom cf :
  p_ftype p = Some "OverdampedBrownian" ->
  init_brownian kB_intK iu_energy units ax p
    (validated units ax p dom "OverdampedBrownian") = Ok cf ->
  constructed iu_energy units ax p values dom cf.
Proof.
  intros Hf. unfold init_brownian.
  destruct (p_T p) as [T|] eqn:HT; [|discriminate].
  destruct (p_cortime p) as [tc|] eqn:Htc; [|discriminate].
  destruct (p_reorg p) as [reorg|] eqn:Hr; [|discriminate].
  cbn [getitem mbind result_bind].
  destruct (float_div 1 _) as [x|]; [|discriminate].
  cbn [mbind result_bind].
  destruct (float_div (iu_energy reorg units) tc) as [q|] eqn:Hq;
    [|discriminate].
  apply float_div_inv in Hq as [Hne _].
  cbn [mbind result_bind].
  destruct (float_div _ tc) as [pref|]; [|discriminate].
  cbn [mbind result_bind].
  destruct (__matsubara _ _ _ _) as [ms|] eqn:Hms; [|discriminate].
  cbn [mbind result_bind]. intros [= <-].
  eapply constructed_analytic; eauto.
  apply length_carr_iadd_nd; [apply analytic_base_length|].
  apply (matsubara_loop_shape _ _ _ _ (Scalar 0)) in Hms; [|exact I].
  destruct ms; simpl; [exact I|].
  unfold scalar_mul_arr. now rewrite length_map.
Qed.

Lemma init_constructed units ax p values dom cf :
  CorrelationFunction_init kB_intK iu_energy units ax p values dom = Ok cf ->
  constructed iu_energy units ax p values dom cf.
Proof.
  destruct (p_ftype p) as [f|] eqn:Hf.
  2: { unfold CorrelationFunction_init.
       rewrite check_ftype_missing by exact Hf. discriminate. }
  destruct (decide (f ∈ allowed_types)) as [Hin|Hin].
  2: { unfold CorrelationFunction_init.
       rewrite (check_ftype_unknown _ _ _ _ Hf Hin). discriminate. }
  rewrite (init_dispatch _ _ _ _ _ _ Hf Hin).
  unfold allowed_types in Hin. set_unfold in Hin.
  destruct Hin as [-> | [-> | [-> | []]]]; cbn -[validated];
    destruct (bool_decide_reflect (dom = "Time")) as [Hd|Hd];
    cbn -[validated]; try discriminate.
  - unfold init_high_temperature.
    destruct (p_T p) as [T|] eqn:HT; [|discriminate].
    destruct (p_cortime p) as [tc|] eqn:Htc; [|discriminate].
    destruct (p_reorg p) as [reorg|] eqn:Hr; [|discriminate].
    cbn [getitem mbind result_bind].
    destruct (float_div (iu_energy reorg units) tc) as [q|] eqn:Hq;
      [|discriminate].
    apply float_div_inv in Hq as [Hne _].
    cbn [mbind result_bind]. intros [= <-].
    eapply constructed_analytic; eauto.
    apply analytic_base_length.
  - apply init_brownian_constructed. exact Hf.
  - apply init_brownian_constructed. exact Hf.
  - unfold init_value_defined.
    destruct (p_reorg p) as [reorg|] eqn:Hr; [|discriminate].
    cbn [getitem mbind result_bind].
    destruct values as [v|]; [|discriminate].
    destruct (bool_decide_reflect (length v = ta_length ax)) as [Hl|Hl];
      [|discriminate].
    intros [= <-]. now eapply constructed_value_defined.
Qed.

(** What the constructor returns on each branch, written out. *)
Lemma high_temperature_built units ax p values T tc reorg :
  p_ftype p = Some "OverdampedBrownian-HighTemperature" ->
  p_T p = Some T -> p_cortime p = Some tc -> p_reorg p = Some reorg ->
  tc <> 0 ->
  let lamb := iu_energy reorg units in
  CorrelationFunction_init kB_intK iu_energy units ax p values "Time"
  = Ok (setattr "cutoff_time" (PFloat (5 * tc))
         (setattr "T" (PFloat T)
           (setattr "lamb" (PFloat lamb)
             (_make_me ax
                (map (fun x => mkC (2 * lamb * (kB_intK * T) * exp (- x / tc))
                                   (- (lamb / tc * exp (- x / tc))))
                     (ta_data ax))
                (validated units ax p "Time"
                   "OverdampedBrownian-HighTemperature"))))).
Proof.
  intros Hf HT Htc Hr Hne lamb.
  rewrite (init_dispatch _ _ _ _ _ _ Hf) by set_solver.
  branches.
  unfold init_high_temperature. rewrite HT, Htc, Hr.
  cbn [getitem mbind result_bind].
  rewrite float_div_ok by exact Hne. cbn [mbind result_bind].
  fold lamb. rewrite high_temperature_array. reflexivity.
Qed.

Lemma brownian_built units ax p values domain T tc reorg :
  p_ftype p = Some "OverdampedBrownian" ->
  p_T p = Some T -> p_cortime p = Some tc -> p_reorg p = Some reorg ->
  brownian_in_range kB_intK T tc (matsubara_order p) ->
  let lamb := iu_energy reorg units in
  let N := match p_matsubara p with Some n => Z.to_nat n | None => 10%nat end in
  CorrelationFunction_init kB_intK iu_energy units ax p values domain
  = Ok (setattr "cutoff_time" (PFloat (5 * tc))
         (setattr "T" (PFloat T)
           (setattr "lamb" (PFloat lamb)
             (_make_me ax
                (map (brownian_formula lamb kB_intK T tc N) (ta_data ax))
                (validated units ax p domain "OverdampedBrownian"))))).
Proof.
  intros Hf HT Htc Hr (HkBT & Hdiv & Hitc & Hnu) lamb N.
  pose proof float_underflow_pos as Hpos.
  assert (HkBT' : 2 * (kB_intK * T) * tc <> 0).
  { intros H. rewrite H, Rabs_R0 in Hdiv. lra. }
  assert (Hne : tc <> 0).
  { intros ->. apply HkBT'. ring. }
  rewrite (init_dispatch _ _ _ _ _ _ Hf) by set_solver.
  branches.
  unfold init_brownian. rewrite HT, Htc, Hr.
  cbn [getitem mbind result_bind].
  rewrite (float_mul_ok kB_intK T) by exact HkBT.
  rewrite (float_mul_ok (2 * (kB_intK * T)) tc) by exact Hdiv.
  rewrite (float_div_ok 1) by exact HkBT'. cbn [mbind result_bind].
  rewrite !float_div_ok by exact Hne. cbn [mbind result_bind].
  assert (HN : Z.to_nat (match p_matsubara p with Some n => n | None => 10%Z end)
               = N).
  { unfold N. destruct (p_matsubara p); reflexivity. }
  destruct (matsubara_spec (kB_intK * T) tc
              (match p_matsubara p with Some n => n | None => 10%Z end)
              (ta_data ax) Hne) as (ms & -> & Hms).
  { rewrite HN. exact Hitc. }
  { rewrite HN. exact Hnu. }
  cbn [mbind result_bind].
  fold lamb. rewrite brownian_array.
  rewrite (carr_iadd_nd_represents _ _ _ _ _ Hms).
  do 5 f_equal.
  apply map_ext. intros x. unfold brownian_formula. rewrite HN.
  replace (2 * PI * (kB_intK * T)) with (2 * PI * kB_intK * T) by ring.
  replace (2 * (kB_intK * T) * tc) with (2 * kB_intK * T * tc) by ring.
  apply complex_eq; simpl; field; exact Hne.
Qed.

Lemma value_defined_built units ax p v reorg :
  p_ftype p = Some "Value-defined" ->
  p_reorg p = Some reorg ->
  length v = ta_length ax ->
  CorrelationFunction_init kB_intK iu_energy units ax p (Some v) "Time"
  = Ok (setattr "data" (PArray v)
         (setattr "cutoff_time"
            (PFloat (match p_cutoff_time p with
                     | Some c => c
                     | None => ta_tmax ax
                     end))
           (setattr "lamb" (PFloat (iu_energy reorg units))
             (validated units ax p "Time" "Value-defined")))).
Proof.
  intros Hf Hr Hlen.
  rewrite (init_dispatch _ _ _ _ _ _ Hf) by set_solver.
  branches.
  unfold init_value_defined. rewrite Hr.
  cbn [getitem mbind result_bind].
  rewrite bool_decide_eq_true_2 by exact Hlen. reflexivity.
Qed.



End ConstructionFacts.

(** ** The attributes of a constructed instance *)

Section InstanceFacts.
Variable iu_energy : R -> string -> R.
Variables (units : string) (ax : TimeAxis) (p : ParamBag)
  (values : option (list complex)) (domain : string) (cf : object).
Hypothesis Hcf : constructed iu_energy units ax p values domain cf.

Lemma constructed_no_self : cf !! "self" = None.
Proof. destruct Hcf; unfold validated; attrs; reflexivity. Qed.

Lemma constructed_timeAxis : cf !! "timeAxis" = Some (PAxis ax).
Proof. destruct Hcf; unfold validated; attrs; reflexivity. Qed.

Lemma constructed_params : cf !! "params" = Some (PDict p).
Proof. destruct Hcf; unfold validated; attrs; reflexivity. Qed.

Lemma constructed_temperature f :
  p_ftype p = Some f -> analytic f ->
  exists T, p_T p = Some T /\ cf !! "T" = Some (PFloat T).
Proof.
  intros Hf Ha. destruct Hcf as [f' T tc reorg cc Hf' _ HT _ _ _ _|].
  - exists T. split; [exact HT | attrs; reflexivity].
  - rewrite Hf in *. destruct Ha; congruence.
Qed.

Lemma constructed_no_temperature :
  p_ftype p = Some "Value-defined" -> cf !! "T" = None.
Proof.
  intros Hf. destruct Hcf as [f' T tc reorg cc Hf' Hor _ _ _ _ _|].
  - rewrite Hf in Hf'. destruct Hor as [[-> _] | ->]; discriminate.
  - unfold validated; attrs; reflexivity.
Qed.

Lemma constructed_value_defined_reorg :
  p_ftype p = Some "Value-defined" -> exists reorg, p_reorg p = Some reorg.
Proof.
  intros Hf. destruct Hcf as [f' T tc reorg cc Hf' Hor _ _ _ _ _|reorg v _ _ Hr _ _].
  - rewrite Hf in Hf'. destruct Hor as [[-> _] | ->]; discriminate.
  - eauto.
Qed.

Lemma constructed_tabulated :
  values = None ->
  cf !! "axis" = Some (PAxis ax) /\ exists d, cf !! "data" = Some (PArray d).
Proof.
  intros Hv. destruct Hcf as [f' T tc reorg cc _ _ _ _ _ _ _|reorg v _ _ _ Hv' _].
  - split; [attrs; reflexivity | exists cc; attrs; reflexivity].
  - congruence.
Qed.

End InstanceFacts.

(** ** Failures of the constructor *)

Lemma allowed_types_spec f :
  f ∈ allowed_types <->
  f = "OverdampedBrownian-HighTemperature" \/ f = "OverdampedBrownian"
    \/ f = "Value-defined".
Proof. unfold allowed_types. rewrite !elem_of_cons, elem_of_nil. tauto. Qed.

Section ConstructionErrors.
Variable kB_intK : R.
Variable iu_energy : R -> string -> R.









Lemma shape_mismatch_raises units ax p v reorg :
  p_ftype p = Some "Value-defined" -> p_reorg p = Some reorg ->
  length v <> ta_length ax ->
  CorrelationFunction_init kB_intK iu_energy units ax p (Some v) "Time"
  = Raise (Exception (Some "Incompatible values")).
Proof.
  intros Hf Hr Hlen. rewrite (init_dispatch _ _ _ _ _ _ _ _ Hf) by (apply allowed_types_spec; tauto).
  branches. unfold init_value_defined. rewrite Hr.
  cbn [getitem mbind result_bind].
  now rewrite bool_decide_eq_false_2 by exact Hlen.
Qed.


(** C8: for the value-defined type in the time domain (with its
    reorganization energy present), on every grid and for every array of
    values: when the length of the array differs from the length of the
    grid the constructor raises the shape mismatch error and returns no
    instance; when the lengths are equal the values become the samples
    unchanged. *)
Theorem value_defined_shape units ax p v reorg :
  p_ftype p = Some "Value-defined" -> p_reorg p = Some reorg ->
  (length v <> ta_length ax ->
   raises (CorrelationFunction_init kB_intK iu_energy units ax p (Some v) "Time")
     ShapeMismatchError)
  /\ (length v = ta_length ax ->
      exists cf,
        CorrelationFunction_init kB_intK iu_energy units ax p (Some v) "Time"
        = Ok cf
        /\ cf !! "data" = Some (PArray v)).
Proof.
  intros Hf Hr. split; intros Hlen.
  - rewrite (shape_mismatch_raises _ _ _ _ _ Hf Hr Hlen).
    eexists. split; reflexivity.
  - rewrite (value_defined_built _ _ _ _ _ _ _ Hf Hr Hlen).
    eexists. split; [reflexivity | attrs; reflexivity].
Qed.

End ConstructionErrors.

(** ** The methods *)

Section AddFacts.
Variable kB_intK : R.
Variable iu_energy : R -> string -> R.
Variable TimeAxis_eq : TimeAxis -> TimeAxis -> bool.

Lemma add_no_self (self cf : object) ta :
  self !! "timeAxis" = Some (PAxis ta) ->
  cf !! "self" = None ->
  add TimeAxis_eq self cf = Raise (AttributeError "self").
Proof.
  intros Hta Hself. unfold add, getattr. rewrite Hta, Hself. reflexivity.
Qed.

Lemma add_constructed ua axa pa va da ub axb pb vb db a b :
  CorrelationFunction_init kB_intK iu_energy ua axa pa va da = Ok a ->
  CorrelationFunction_init kB_intK iu_energy ub axb pb vb db = Ok b ->
  add TimeAxis_eq a b = Raise (AttributeError "self").
Proof.
  intros Ha Hb. apply init_constructed in Ha, Hb.
  eapply add_no_self.
  - eapply constructed_timeAxis, Ha.
  - eapply constructed_no_self, Hb.
Qed.

(** C5 (the code departs from the claim): for two instances built on the
    same grid with the same temperature, [add] accumulates nothing: the
    lookup of [cf.self] raises [AttributeError] before any comparison. *)
Theorem add_compatible_pair_raises units ax pa pb va vb da db a b T :
  CorrelationFunction_init kB_intK iu_energy units ax pa va da = Ok a ->
  CorrelationFunction_init kB_intK iu_energy units ax pb vb db = Ok b ->
  TimeAxis_eq ax ax = true ->
  get_temperature a = Ok (PFloat T) ->
  get_temperature b = Ok (PFloat T) ->
  add TimeAxis_eq a b = Raise (AttributeError "self").
Proof. intros Ha Hb _ _ _. exact (add_constructed _ _ _ _ _ _ _ _ _ _ _ _ Ha Hb). Qed.

(** C6 (the code departs from the claim): for every pair of constructed
    instances, compatible or not, [add] raises the [AttributeError] of
    [cf.self], which is not the exception of its [else] branch. *)
Theorem add_always_raises_AttributeError ua axa pa va da ub axb pb vb db a b :
  CorrelationFunction_init kB_intK iu_energy ua axa pa va da = Ok a ->
  CorrelationFunction_init kB_intK iu_energy ub axb pb vb db = Ok b ->
  add TimeAxis_eq a b = Raise (AttributeError "self")
  /\ ~ IncompatibleOperandError (AttributeError "self").
Proof.
  intros Ha Hb. split.
  - exact (add_constructed _ _ _ _ _ _ _ _ _ _ _ _ Ha Hb).
  - unfold IncompatibleOperandError. discriminate.
Qed.

End AddFacts.

Section CopyFacts.
Variable kB_intK : R.
Variable iu_energy : R -> string -> R.

Lemma copy_rebuilds units ax p values domain cf units' :
  CorrelationFunction_init kB_intK iu_energy units ax p values domain = Ok cf ->
  copy kB_intK iu_energy units' cf
  = CorrelationFunction_init kB_intK iu_energy units' ax p None "Time".
Proof.
  intros Hcf. apply init_constructed in Hcf. unfold copy, getattr.
  rewrite (constructed_timeAxis _ _ _ _ _ _ _ Hcf).
  rewrite (constructed_params _ _ _ _ _ _ _ Hcf). reflexivity.
Qed.

Lemma init_analytic_values units ax p values values' domain f :
  p_ftype p = Some f -> analytic f ->
  CorrelationFunction_init kB_intK iu_energy units ax p values domain
  = CorrelationFunction_init kB_intK iu_energy units ax p values' domain.
Proof.
  intros Hf Ha.
  assert (Hin : f ∈ allowed_types) by (destruct Ha as [-> | ->]; set_solver).
  rewrite !(init_dispatch _ _ _ _ _ _ _ _ Hf Hin).
  destruct Ha as [-> | ->]; branches;
    destruct (bool_decide (domain = "Time")); reflexivity.
Qed.

Lemma copy_analytic units ax p values cf f :
  p_ftype p = Some f -> analytic f ->
  CorrelationFunction_init kB_intK iu_energy units ax p values "Time" = Ok cf ->
  copy kB_intK iu_energy units cf = Ok cf.
Proof.
  intros Hf Ha Hcf. rewrite (copy_rebuilds _ _ _ _ _ _ _ Hcf).
  rewrite <- Hcf. apply (init_analytic_values _ _ _ _ _ _ _ Hf Ha).
Qed.

(** C9 (the code departs from the claim): [copy] of a value-defined
    instance calls the constructor without the values and raises the
    [TypeError] of [len(None)]; no copy is returned. *)
Theorem copy_value_defined_raises units ax p values domain cf units' :
  p_ftype p = Some "Value-defined" ->
  CorrelationFunction_init kB_intK iu_energy units ax p values domain = Ok cf ->
  copy kB_intK iu_energy units' cf
  = Raise (TypeError "object of type 'NoneType' has no len()").
Proof.
  intros Hf Hcf. rewrite (copy_rebuilds _ _ _ _ _ _ _ Hcf).
  apply init_constructed in Hcf.
  destruct (constructed_value_defined_reorg _ _ _ _ _ _ _ Hcf Hf) as [reorg Hr].
  rewrite (init_dispatch _ _ _ _ _ _ _ _ Hf) by set_solver.
  branches. unfold init_value_defined. rewrite Hr. reflexivity.
Qed.

(** C10: on an instance of one of the two analytic types
    [get_temperature] returns the temperature of the parameter bag; on a
    value-defined instance, which never records a temperature, it raises
    [AttributeError]. *)
Theorem get_temperature_analytic_only units ax p values domain cf :
  CorrelationFunction_init kB_intK iu_energy units ax p values domain = Ok cf ->
  (forall f, p_ftype p = Some f -> analytic f ->
     exists T, p_T p = Some T /\ get_temperature cf = Ok (PFloat T))
  /\ (p_ftype p = Some "Value-defined" ->
      get_temperature cf = Raise (AttributeError "T")).
Proof.
  intros Hcf. apply init_constructed in Hcf. split.
  - intros f Hf Ha.
    destruct (constructed_temperature _ _ _ _ _ _ _ Hcf f Hf Ha) as (T & HT & Hl).
    exists T. split; [exact HT|]. unfold get_temperature, getattr.
    now rewrite Hl.
  - intros Hf. unfold get_temperature, getattr.
    now rewrite (constructed_no_temperature _ _ _ _ _ _ _ Hcf Hf).
Qed.

End CopyFacts.

(** ** The symmetrized transforms *)

Lemma constructed_ftype iu units ax p values domain cf :
  constructed iu units ax p values domain cf ->
  exists f, p_ftype p = Some f /\ f ∈ allowed_types.
Proof.
  intros [f T tc reorg cc Hf Hor _ _ _ _ _ | reorg v Hf _ _ _ _].
  - exists f. split; [exact Hf|]. apply allowed_types_spec. tauto.
  - eexists. split; [exact Hf|]. apply allowed_types_spec. tauto.
Qed.

Lemma j_mul_imag d : j_mul_arr (numpy_imag d) = map (fun z => mkC 0 (Im z)) d.
Proof.
  unfold j_mul_arr, cscalar_mul_arr, numpy_imag. rewrite map_map.
  apply map_ext. intros z. apply complex_eq; simpl; ring.
Qed.

Lemma real_embedded d : map RtoC (numpy_real d) = map (fun z => mkC (Re z) 0) d.
Proof. unfold numpy_real. rewrite map_map. reflexivity. Qed.

Lemma all_zero_odd d : purely_real d -> all_zero (map (fun z => mkC 0 (Im z)) d).
Proof.
  unfold purely_real, all_zero. intros H. apply Forall_fmap.
  eapply Forall_impl; [exact H|]. intros z Hz. simpl. now rewrite Hz.
Qed.

Lemma all_zero_even d :
  purely_imaginary d -> all_zero (map (fun z => mkC (Re z) 0) d).
Proof.
  unfold purely_imaginary, all_zero. intros H. apply Forall_fmap.
  eapply Forall_impl; [exact H|]. intros z Hz. simpl. now rewrite Hz.
Qed.

Section SpectralFacts.
Variable kB_intK : R.
Variable iu_energy : R -> string -> R.
Variable Fourier_transform :
  string -> TimeAxis -> list complex -> FrequencyAxis * list complex.

(** The transform stored by [store_transform] when the instance handed to
    it is tabulated. *)
Lemma store_transform_data p cf self ax d :
  cf !! "axis" = Some (PAxis ax) -> cf !! "data" = Some (PArray d) ->
  exists ft, store_transform Fourier_transform p cf self = Ok ft
    /\ ft !! "data" = Some (PArray (snd (Fourier_transform "int" ax d))).
Proof.
  intros Hax Hd. unfold store_transform, get_Fourier_transform, getattr.
  rewrite Hax, Hd. cbn [mbind result_bind as_axis as_array].
  eexists. split; [reflexivity | attrs; reflexivity].
Qed.

Lemma symmetrized_init units axis p cf d (sym : list complex -> list complex) :
  CorrelationFunction_init kB_intK iu_energy units axis p None "Time" = Ok cf ->
  cf !! "data" = Some (PArray d) ->
  exists ft,
    (self ← check_ftype units p ∅;
     energy_units ← getattr self "energy_units" ≫= as_str;
     cf ← CorrelationFunction_init kB_intK iu_energy energy_units axis p
            None "Time";
     data ← getattr cf "data" ≫= as_array;
     let cf := setattr "data" (PArray (sym data)) cf in
     store_transform Fourier_transform p cf self) = Ok ft
    /\ ft !! "data"
       = Some (PArray (snd (Fourier_transform "int" axis (sym d)))).
Proof.
  intros Hcf Hd. pose proof (init_constructed _ _ _ _ _ _ _ _ Hcf) as Hc.
  destruct (constructed_ftype _ _ _ _ _ _ _ Hc) as (f & Hf & Hin).
  destruct (constructed_tabulated _ _ _ _ _ _ _ Hc eq_refl) as [Hax _].
  rewrite (check_ftype_ok _ _ _ _ Hf Hin). cbn [mbind result_bind].
  attrs. cbn [mbind result_bind as_str]. rewrite Hcf.
  cbn [mbind result_bind]. rewrite Hd. cbn [mbind result_bind as_array].
  apply store_transform_data.
  - unfold setattr. now rewrite lookup_insert_ne by done.
  - unfold setattr. now rewrite lookup_insert_eq.
Qed.

(** C3: the odd constructor hands [i Im(samples)] and the even constructor
    [Re(samples)] to the Fourier transform; with a transform that maps the
    zero sequence to the zero sequence, purely real samples give an
    all-zero odd transform and purely imaginary samples an all-zero even
    transform. *)
Theorem symmetrized_transforms units axis p cf d :
  CorrelationFunction_init kB_intK iu_energy units axis p None "Time" = Ok cf ->
  cf !! "data" = Some (PArray d) ->
  (forall ax s, all_zero s -> all_zero (snd (Fourier_transform "int" ax s))) ->
  let odd_part := map (fun z => mkC 0 (Im z)) d in
  let even_part := map (fun z => mkC (Re z) 0) d in
  (exists ft,
     OddFTCorrelationFunction_init kB_intK iu_energy Fourier_transform
       units axis p = Ok ft
     /\ ft !! "data"
        = Some (PArray (snd (Fourier_transform "int" axis odd_part))))
  /\ (exists ft,
        EvenFTCorrelationFunction_init kB_intK iu_energy Fourier_transform
          units axis p = Ok ft
        /\ ft !! "data"
           = Some (PArray (snd (Fourier_transform "int" axis even_part))))
  /\ (purely_real d ->
      all_zero (snd (Fourier_transform "int" axis odd_part)))
  /\ (purely_imaginary d ->
      all_zero (snd (Fourier_transform "int" axis even_part))).
Proof.
  intros Hcf Hd Hzero odd_part even_part. repeat split.
  - destruct (symmetrized_init units axis p cf d
                (fun a => j_mul_arr (numpy_imag a)) Hcf Hd) as (ft & Hft & Hdata).
    exists ft. split; [exact Hft|]. rewrite Hdata, j_mul_imag. reflexivity.
  - destruct (symmetrized_init units axis p cf d
                (fun a => map RtoC (numpy_real a)) Hcf Hd) as (ft & Hft & Hdata).
    exists ft. split; [exact Hft|]. rewrite Hdata, real_embedded. reflexivity.
  - intros Hreal. apply Hzero, all_zero_odd, Hreal.
  - intros Him. apply Hzero, all_zero_even, Him.
Qed.

End SpectralFacts.

(** ** The integration transforms *)

Lemma arr_complex_pair sr si : arr_complex sr si = zip_with mkC sr si.
Proof.
  unfold arr_complex. revert si.
  induction sr as [|x sr IH]; intros [|y si]; simpl; try reflexivity.
  rewrite IH. f_equal. apply complex_eq; simpl; ring.
Qed.

Lemma zip_with_replicate_zero n :
  zip_with mkC (replicate n 0) (replicate n 0) = replicate n C0.
Proof. induction n as [|n IH]; simpl; [reflexivity | now rewrite IH]. Qed.

Lemma map_replicate {A B} (f : A -> B) n x :
  map f (replicate n x) = replicate n (f x).
Proof. induction n as [|n IH]; simpl; [reflexivity | now rewrite IH]. Qed.

Section IntegrationFacts.
Variable spline : Type.
Variable UnivariateSpline : list R -> list R -> R -> result spline.
Variable antiderivative : spline -> spline.
Variable spline_call : spline -> list R -> list R.

(** C4: [c2g] integrates the real and the imaginary part separately, each
    by two passes of spline, antiderivative and evaluation on the grid, and
    recombines the two results as real + i imag; when a pass maps the zero
    sequence to the zero sequence, [c2g] maps the zero sample sequence to
    the zero sequence of the same length. *)
Theorem c2g_double_integral timeaxis coft :
  let x := ta_data timeaxis in
  let integral := spline_integral UnivariateSpline antiderivative spline_call x in
  c2g UnivariateSpline antiderivative spline_call timeaxis coft
  = (sr ← integral (map Re coft) ≫= integral;
     si ← integral (map Im coft) ≫= integral;
     Ok (zip_with mkC sr si))
  /\ (forall n, coft = replicate n C0 ->
      integral (replicate n 0) = Ok (replicate n 0) ->
      c2g UnivariateSpline antiderivative spline_call timeaxis coft
      = Ok (replicate n C0)).
Proof.
  intros x integral.
  assert (Heq : c2g UnivariateSpline antiderivative spline_call timeaxis coft
                = (sr ← integral (map Re coft) ≫= integral;
                   si ← integral (map Im coft) ≫= integral;
                   Ok (zip_with mkC sr si))).
  { unfold c2g, integral, spline_integral, numpy_real, numpy_imag. fold x.
    destruct (UnivariateSpline x (map Re coft) 0) as [s1|]; [|reflexivity].
    cbn [mbind result_bind].
    destruct (UnivariateSpline x (spline_call (antiderivative s1) x) 0)
      as [s2|]; [|reflexivity].
    cbn [mbind result_bind].
    destruct (UnivariateSpline x (map Im coft) 0) as [s3|]; [|reflexivity].
    cbn [mbind result_bind].
    destruct (UnivariateSpline x (spline_call (antiderivative s3) x) 0)
      as [s4|]; [|reflexivity].
    cbn [mbind result_bind]. now rewrite arr_complex_pair. }
  split; [exact Heq|].
  intros n -> Hzero. rewrite Heq.
  rewrite !map_replicate. cbn [Re Im C0 RtoC].
  rewrite Hzero. cbn [mbind result_bind]. rewrite Hzero.
  cbn [mbind result_bind]. now rewrite zip_with_replicate_zero.
Qed.

End IntegrationFacts.

(** ** The cubic through four points *)

Lemma pzero_padd p q : pzero p -> pzero q -> pzero (padd p q).
Proof.
  unfold pzero. intros Hp. revert q.
  induction Hp as [|a p Ha Hp IH]; intros q Hq; [exact Hq|].
  destruct Hq as [|b q Hb Hq]; simpl.
  - now constructor.
  - constructor; [lra | now apply IH].
Qed.

Lemma pzero_pscale_0 p : pzero (pscale 0 p).
Proof.
  unfold pzero, pscale. apply Forall_fmap, Forall_true. intros c. simpl. ring.
Qed.

Lemma pzero_interpolate xs n : pzero (interpolate xs (replicate n 0)).
Proof.
  unfold interpolate.
  assert (H : Forall pzero
                (imap (fun j xy => pscale (snd xy) (lagrange_basis xs j (fst xy)))
                      (zip xs (replicate n 0)))).
  { apply Forall_lookup. intros i q Hq.
    rewrite list_lookup_imap in Hq.
    destruct (zip xs (replicate n 0) !! i) as [[a b]|] eqn:Hz; [|discriminate].
    simpl in Hq. injection Hq as <-.
    apply lookup_zip_with_Some in Hz as (a' & b' & [= <- <-] & _ & Hb).
    apply lookup_replicate in Hb as [-> _]. apply pzero_pscale_0. }
  induction H as [|q qs Hq Hqs IH]; simpl; [constructor|].
  now apply pzero_padd.
Qed.

Lemma pzero_pint p : pzero p -> pzero (pint p).
Proof.
  unfold pzero, pint. intros Hp. constructor; [reflexivity|].
  apply Forall_lookup. intros i c Hc. rewrite list_lookup_imap in Hc.
  destruct (p !! i) as [a|] eqn:Ha; [|discriminate].
  simpl in Hc. injection Hc as <-.
  rewrite (proj1 (Forall_lookup _ _) Hp i a Ha). unfold Rdiv. ring.
Qed.

Lemma peval_pzero p x : pzero p -> peval p x = 0.
Proof.
  induction 1 as [|c p -> _ IH]; simpl; [reflexivity|]. rewrite IH. ring.
Qed.

Lemma cubic_integral_zero (x : list R) :
  length x = 4%nat ->
  spline_integral cubic_fit cubic_antiderivative cubic_call x (replicate 4 0)
  = Ok (replicate 4 0).
Proof.
  intros Hlen. unfold spline_integral, cubic_fit.
  rewrite bool_decide_eq_true_2 by (rewrite length_replicate; auto).
  cbn [mbind result_bind]. f_equal.
  unfold cubic_call, cubic_antiderivative. cbn [cubic_poly cubic_left].
  assert (HF : pzero (pint (interpolate x (replicate 4 0)))).
  { apply pzero_pint, pzero_interpolate. }
  assert (Hp : pzero (padd [- peval (pint (interpolate x (replicate 4 0))) (hd 0 x)]
                        (pint (interpolate x (replicate 4 0))))).
  { apply pzero_padd; [|exact HF]. constructor; [|constructor].
    rewrite (peval_pzero _ _ HF). ring. }
  destruct x as [|a [|b [|c [|d [|]]]]]; try discriminate.
  cbn [map replicate]. now rewrite !(peval_pzero _ _ Hp).
Qed.

(** ** The discrete transform *)

Lemma Cmul_C0_l z : Cmul C0 z = C0.
Proof. apply complex_eq; simpl; ring. Qed.

Lemma Cmul_C0_r z : Cmul z C0 = C0.
Proof. apply complex_eq; simpl; ring. Qed.

Lemma Csum_zero l : all_zero l -> Csum l = C0.
Proof.
  induction 1 as [|z l -> _ IH]; simpl; [reflexivity|]. rewrite IH.
  apply complex_eq; simpl; ring.
Qed.

Lemma dft_coefficient_zero d k : all_zero d -> dft_coefficient d k = C0.
Proof.
  intros Hd. unfold dft_coefficient. apply Csum_zero.
  apply Forall_lookup. intros i z Hz. rewrite list_lookup_imap in Hz.
  destruct (d !! i) as [w|] eqn:Hw; [|discriminate].
  simpl in Hz. injection Hz as <-.
  rewrite (proj1 (Forall_lookup _ _) Hd i w Hw). apply Cmul_C0_l.
Qed.

Lemma discrete_Fourier_transform_zero units ax d :
  all_zero d -> all_zero (snd (discrete_Fourier_transform units ax d)).
Proof.
  intros Hd. unfold discrete_Fourier_transform, fftshift. cbn [snd].
  apply Forall_fmap.
  assert (H : all_zero (map (dft_coefficient d) (seq 0 (length d)))).
  { apply Forall_fmap, Forall_true. intros k. simpl.
    now apply dft_coefficient_zero. }
  apply Forall_app. split.
  - eapply Forall_impl; [apply Forall_drop, H|].
    intros z ->. apply Cmul_C0_r.
  - eapply Forall_impl; [apply Forall_take, H|].
    intros z ->. apply Cmul_C0_r.
Qed.

(** ** Worked instances *)


Lemma float_underflow_below (x : R) :
  / 1000000 <= x -> float_underflow < Rabs x.
Proof.
  intros Hx. rewrite Rabs_pos_eq by lra.
  apply Rlt_le_trans with (/ 1000000); [|exact Hx].
  apply Rlt_trans with (/ IZR (10 ^ 300)); [apply float_underflow_small|].
  apply Rinv_lt_contravar.
  - apply Rmult_lt_0_compat; [lra | apply (IZR_lt 0); reflexivity].
  - apply (IZR_lt 1000000). reflexivity.
Qed.

Lemma square_in_range_below (x : R) : x ^ 2 <= 1000000 -> square_in_range x.
Proof.
  intros Hx. unfold square_in_range.
  apply Rle_lt_trans with 1000000; [exact Hx|].
  apply Rlt_trans with (IZR (10 ^ 300)); [|apply float_overflow_large].
  apply (IZR_lt 1000000). reflexivity.
Qed.

Lemma PI_bounds : 2 < PI <= 4.
Proof. pose proof PI2_1. pose proof PI_4. lra. Qed.

(** At 300 K with a correlation time of 100 the general Brownian type is
    inside the double range, for every order up to 10, and away from the
    poles. *)
Lemma sample_in_range (N : nat) :
  (N <= 10)%nat -> brownian_in_range kB_sample 300 100 N.
Proof.
  intros HN. pose proof PI_bounds as [Hlo Hhi]. unfold kB_sample.
  split; [apply float_underflow_below; lra|].
  split; [apply float_underflow_below; lra|].
  split; [intros _; apply square_in_range_below; lra|].
  intros n [Hn1 Hn2]. apply square_in_range_below.
  pose proof (pos_INR n) as H0.
  pose proof (le_INR n 10 ltac:(lia)) as H10. simpl in H10.
  assert (Hp : 0 <= PI * INR n <= 40) by nra.
  set (y := 2 * PI * (1309 / 10000000 * 300) * INR n).
  assert (Hy : 0 <= y <= 4) by (unfold y; lra).
  nra.
Qed.




Lemma no_coupling_built :
  CorrelationFunction_init kB_sample iu_energy_sample "1/cm" grid3
    params_no_coupling None "Time"
  = Ok (setattr "cutoff_time" (PFloat (5 * 100))
         (setattr "T" (PFloat 300)
           (setattr "lamb" (PFloat (iu_energy_sample 0 "1/cm"))
             (_make_me grid3
                (map (fun x => mkC (2 * iu_energy_sample 0 "1/cm"
                                      * (kB_sample * 300) * exp (- x / 100))
                                   (- (iu_energy_sample 0 "1/cm" / 100
                                       * exp (- x / 100))))
                     (ta_data grid3))
                (validated "1/cm" grid3 params_no_coupling "Time"
                   "OverdampedBrownian-HighTemperature"))))).
Proof.
  apply (high_temperature_built kB_sample iu_energy_sample "1/cm" grid3
           params_no_coupling None 300 100 0); try reflexivity. lra.
Qed.

Lemma iu_energy_sample_zero u : iu_energy_sample 0 u = 0.
Proof. unfold iu_energy_sample. destruct (bool_decide _); lra. Qed.

Lemma symmetrized_transforms_witness :
  exists odd even s1 s2,
    OddFTCorrelationFunction_init kB_sample iu_energy_sample
      discrete_Fourier_transform "1/cm" grid3 params_no_coupling = Ok odd
    /\ EvenFTCorrelationFunction_init kB_sample iu_energy_sample
         discrete_Fourier_transform "1/cm" grid3 params_no_coupling = Ok even
    /\ odd !! "data" = Some (PArray s1) /\ all_zero s1
    /\ even !! "data" = Some (PArray s2) /\ all_zero s2.
Proof.
  destruct (symmetrized_transforms kB_sample iu_energy_sample
              discrete_Fourier_transform "1/cm" grid3 params_no_coupling _ _
              no_coupling_built ltac:(attrs; reflexivity)
              (discrete_Fourier_transform_zero "int"))
    as ((odd & Hodd & Hdo) & (even & Heven & Hde) & Hzo & Hze).
  exists odd, even. eexists _, _.
  split; [exact Hodd|]. split; [exact Heven|].
  split; [exact Hdo|]. split.
  { apply Hzo. unfold purely_real. apply Forall_fmap, Forall_true.
    intros x. simpl. rewrite iu_energy_sample_zero. unfold Rdiv. ring. }
  split; [exact Hde|].
  apply Hze. unfold purely_imaginary. apply Forall_fmap, Forall_true.
  intros x. simpl. rewrite iu_energy_sample_zero. ring.
Defined.

Lemma c2g_double_integral_witness :
  c2g cubic_fit cubic_antiderivative cubic_call grid4 (replicate 4 C0)
  = Ok (replicate 4 C0).
Proof.
  apply (proj2 (c2g_double_integral cubic cubic_fit cubic_antiderivative
                  cubic_call grid4 (replicate 4 C0)) 4%nat eq_refl).
  apply cubic_integral_zero. reflexivity.
Defined.

Lemma sample_high_temperature_built :
  exists a,
    CorrelationFunction_init kB_sample iu_energy_sample "1/cm" grid3
      params_high_temperature None "Time" = Ok a
    /\ get_temperature a = Ok (PFloat 300).
Proof.
  eexists. split.
  - apply (high_temperature_built kB_sample iu_energy_sample "1/cm" grid3
             params_high_temperature None 300 100 20); try reflexivity. lra.
  - unfold get_temperature. attrs. reflexivity.
Qed.

Lemma sample_brownian_built :
  exists b,
    CorrelationFunction_init kB_sample iu_energy_sample "1/cm" grid3
      params_brownian None "Time" = Ok b
    /\ get_temperature b = Ok (PFloat 300).
Proof.
  eexists. split.
  - apply (brownian_built kB_sample iu_energy_sample "1/cm" grid3
             params_brownian None "Time" 300 100 20); try reflexivity.
    apply (sample_in_range 10). lia.
  - unfold get_temperature. attrs. reflexivity.
Qed.

Lemma sample_value_defined_built :
  exists c,
    CorrelationFunction_init kB_sample iu_energy_sample "1/cm" grid3
      params_value_defined (Some three_values) "Time" = Ok c.
Proof.
  eexists.
  apply (value_defined_built kB_sample iu_energy_sample "1/cm" grid3
           params_value_defined three_values 20); reflexivity.
Qed.

Lemma add_compatible_pair_raises_witness :
  exists a b,
    CorrelationFunction_init kB_sample iu_energy_sample "1/cm" grid3
      params_high_temperature None "Time" = Ok a
    /\ CorrelationFunction_init kB_sample iu_energy_sample "1/cm" grid3
         params_brownian None "Time" = Ok b
    /\ add same_grid a b = Raise (AttributeError "self").
Proof.
  destruct sample_high_temperature_built as (a & Ha & Hta).
  destruct sample_brownian_built as (b & Hb & Htb).
  exists a, b. split; [exact Ha|]. split; [exact Hb|].
  apply (add_compatible_pair_raises kB_sample iu_energy_sample same_grid
           "1/cm" grid3 params_high_temperature params_brownian
           None None "Time" "Time" a b 300 Ha Hb);
    [apply bool_decide_eq_true_2; reflexivity | exact Hta | exact Htb].
Defined.

Lemma add_always_raises_AttributeError_witness :
  exists a c,
    CorrelationFunction_init kB_sample iu_energy_sample "1/cm" grid3
      params_high_temperature None "Time" = Ok a
    /\ CorrelationFunction_init kB_sample iu_energy_sample "1/cm" grid3
         params_value_defined (Some three_values) "Time" = Ok c
    /\ add same_grid a c = Raise (AttributeError "self")
    /\ add same_grid c a = Raise (AttributeError "self").
Proof.
  destruct sample_high_temperature_built as (a & Ha & _).
  destruct sample_value_defined_built as (c & Hc).
  exists a, c. split; [exact Ha|]. split; [exact Hc|]. split.
  - apply (add_always_raises_AttributeError kB_sample iu_energy_sample
             same_grid _ _ _ _ _ _ _ _ _ _ a c Ha Hc).
  - apply (add_always_raises_AttributeError kB_sample iu_energy_sample
             same_grid _ _ _ _ _ _ _ _ _ _ c a Hc Ha).
Defined.





Lemma value_defined_shape_witness :
  raises (CorrelationFunction_init kB_sample iu_energy_sample "1/cm" grid3
            params_value_defined (Some [C0]) "Time") ShapeMismatchError
  /\ exists cf,
       CorrelationFunction_init kB_sample iu_energy_sample "1/cm" grid3
         params_value_defined (Some three_values) "Time" = Ok cf
       /\ cf !! "data" = Some (PArray three_values).
Proof.
  split.
  - apply (proj1 (value_defined_shape kB_sample iu_energy_sample "1/cm" grid3
                    params_value_defined [C0] 20 eq_refl eq_refl)).
    simpl. discriminate.
  - apply (proj2 (value_defined_shape kB_sample iu_energy_sample "1/cm" grid3
                    params_value_defined three_values 20 eq_refl eq_refl)).
    reflexivity.
Defined.

Lemma copy_value_defined_raises_witness :
  exists c,
    CorrelationFunction_init kB_sample iu_energy_sample "1/cm" grid3
      params_value_defined (Some three_values) "Time" = Ok c
    /\ copy kB_sample iu_energy_sample "1/cm" c
       = Raise (TypeError "object of type 'NoneType' has no len()").
Proof.
  destruct sample_value_defined_built as (c & Hc).
  exists c. split; [exact Hc|].
  apply (copy_value_defined_raises kB_sample iu_energy_sample "1/cm" grid3
           params_value_defined (Some three_values) "Time" c "1/cm"
           eq_refl Hc).
Defined.

Lemma get_temperature_analytic_only_witness :
  exists a c,
    CorrelationFunction_init kB_sample iu_energy_sample "1/cm" grid3
      params_high_temperature None "Time" = Ok a
    /\ CorrelationFunction_init kB_sample iu_energy_sample "1/cm" grid3
         params_value_defined (Some three_values) "Time" = Ok c
    /\ get_temperature a = Ok (PFloat 300)
    /\ get_temperature c = Raise (AttributeError "T").
Proof.
  destruct sample_high_temperature_built as (a & Ha & _).
  destruct sample_value_defined_built as (c & Hc).
  exists a, c. split; [exact Ha|]. split; [exact Hc|]. split.
  - destruct (proj1 (get_temperature_analytic_only kB_sample iu_energy_sample
                       _ _ _ _ _ a Ha)
                "OverdampedBrownian-HighTemperature" eq_refl
                (or_introl eq_refl)) as (T & HT & Hget).
    injection HT as <-. exact Hget.
  - apply (proj2 (get_temperature_analytic_only kB_sample iu_energy_sample
                    _ _ _ _ _ c Hc) eq_refl).
Defined.

(** * Further properties of the module *)

(** ** The constructor *)

Section ConstructionExtras.
Variable kB_intK : R.
Variable iu_energy : R -> string -> R.

(** The general Brownian branch does the same to every instance it is
    run on. *)
Lemma init_brownian_shape units ax p self o :
  init_brownian kB_intK iu_energy units ax p self = Ok o ->
  exists T tc reorg cc, forall self',
    init_brownian kB_intK iu_energy units ax p self'
    = Ok (setattr "cutoff_time" (PFloat (5 * tc))
           (setattr "T" (PFloat T)
             (setattr "lamb" (PFloat (iu_energy reorg units))
               (_make_me ax cc self')))).
Proof.
  unfold init_brownian.
  destruct (p_T p) as [T|]; [|discriminate].
  destruct (p_cortime p) as [tc|]; [|discriminate].
  destruct (p_reorg p) as [reorg|]; [|discriminate].
  cbn [getitem mbind result_bind].
  destruct (float_div 1 _) as [x|]; [|discriminate].
  cbn [mbind result_bind].
  destruct (float_div (iu_energy reorg units) tc) as [q|]; [|discriminate].
  cbn [mbind result_bind].
  destruct (float_div _ tc) as [pref|]; [|discriminate].
  cbn [mbind result_bind].
  destruct (__matsubara _ _ _ _) as [ms|]; [|discriminate].
  cbn [mbind result_bind]. intros _.
  eexists T, tc, reorg, _. intros self'. reflexivity.
Qed.

(** X1: every instance the constructor returns holds one sample per grid
    point. *)
Theorem constructed_sample_count units ax p values domain cf :
  CorrelationFunction_init kB_intK iu_energy units ax p values domain = Ok cf ->
  exists d, cf !! "data" = Some (PArray d) /\ length d = ta_length ax.
Proof.
  intros Hcf. apply init_constructed in Hcf.
  destruct Hcf as [f T tc reorg cc _ _ _ _ _ _ Hlen | reorg v _ _ _ _ Hlen].
  - exists cc. split; [attrs; reflexivity | exact Hlen].
  - exists v. split; [attrs; reflexivity | exact Hlen].
Qed.

Lemma brownian_domain_change units ax p values domain domain' cf :
  p_ftype p = Some "OverdampedBrownian" ->
  CorrelationFunction_init kB_intK iu_energy units ax p values domain = Ok cf ->
  exists cf',
    CorrelationFunction_init kB_intK iu_energy units ax p values domain'
    = Ok cf'
    /\ cf' !! "time_domain" = Some (PBool (bool_decide (domain' = "Time")))
    /\ forall name, name <> "time_domain" -> cf' !! name = cf !! name.
Proof.
  intros Hf.
  rewrite !(init_dispatch _ _ _ _ _ _ _ _ Hf)
    by (apply allowed_types_spec; tauto).
  branches. intros Hcf.
  destruct (init_brownian_shape _ _ _ _ _ Hcf) as (T & tc & reorg & cc & Hall).
  rewrite Hall in Hcf. injection Hcf as <-. rewrite Hall.
  eexists. split; [reflexivity|]. split.
  - unfold validated. attrs. reflexivity.
  - intros name Hname. unfold validated, _make_me, setattr.
    rewrite !lookup_insert, !lookup_empty.
    repeat (case_decide; [first [reflexivity | exfalso; congruence]|]).
    reflexivity.
Qed.

(** X2: the general Brownian type is accepted in every domain: when it can
    be built in the time domain it can be built in any other, and the two
    instances differ in the [time_domain] flag only. *)
Theorem brownian_accepts_every_domain units ax p values domain cf :
  p_ftype p = Some "OverdampedBrownian" ->
  CorrelationFunction_init kB_intK iu_energy units ax p values "Time" = Ok cf ->
  exists cf',
    CorrelationFunction_init kB_intK iu_energy units ax p values domain
    = Ok cf'
    /\ cf' !! "time_domain" = Some (PBool (bool_decide (domain = "Time")))
    /\ forall name, name <> "time_domain" -> cf' !! name = cf !! name.
Proof. apply brownian_domain_change. Qed.

End ConstructionExtras.

Lemma constructed_time_domain iu units ax p values domain cf :
  constructed iu units ax p values domain cf ->
  cf !! "time_domain" = Some (PBool (bool_decide (domain = "Time"))).
Proof. intros []; unfold validated; attrs; reflexivity. Qed.

Lemma float_div_raise x y e : float_div x y = Raise e -> e = ZeroDivisionError.
Proof.
  unfold float_div. destruct (Req_dec_T y 0); [|discriminate]. now intros [= <-].
Qed.

Lemma float_square_raise x e : float_square x = Raise e -> e = OverflowError.
Proof.
  unfold float_square. destruct (Rle_dec float_overflow (Rabs x)); [discriminate|].
  destruct (Rle_dec float_overflow (x ^ 2)); [|discriminate]. now intros [= <-].
Qed.

Lemma matsubara_loop_raise nu tc t range : forall ms e,
  matsubara_loop nu tc t range ms = Raise e ->
  e = ZeroDivisionError \/ e = OverflowError.
Proof.
  induction range as [|ii range IH]; intros ms e; cbn [matsubara_loop].
  - discriminate.
  - destruct (float_square (nu * INR (ii + 1))) as [a|e1] eqn:Ha;
      cbn [mbind result_bind].
    2: { intros [= <-]. right. now apply float_square_raise in Ha. }
    destruct (float_div 1 tc) as [itc|e2] eqn:Hd; cbn [mbind result_bind].
    2: { intros [= <-]. left. now apply float_div_raise in Hd. }
    destruct (float_square itc) as [b|e3] eqn:Hb; cbn [mbind result_bind].
    2: { intros [= <-]. right. now apply float_square_raise in Hb. }
    apply IH.
Qed.


Ltac step_div :=
  match goal with
  | |- context [float_div ?x ?y ≫= _] =>
      let H := fresh "Hdiv" in
      destruct (float_div x y) eqn:H; cbn [mbind result_bind];
      [| intros [= <-]; apply float_div_raise in H; subst; tauto]
  end.

Section ConstructionExtras2.
Variable kB_intK : R.
Variable iu_energy : R -> string -> R.

(** X3: the two analytic types ignore the [values] argument. *)
Theorem analytic_construction_ignores_values units ax p values values' domain f :
  p_ftype p = Some f -> analytic f ->
  CorrelationFunction_init kB_intK iu_energy units ax p values domain
  = CorrelationFunction_init kB_intK iu_energy units ax p values' domain.
Proof.
  intros Hf Ha.
  assert (Hin : f ∈ allowed_types).
  { apply allowed_types_spec. destruct Ha; tauto. }
  rewrite !(init_dispatch _ _ _ _ _ _ _ _ Hf Hin).
  destruct Ha as [-> | ->]; branches;
    destruct (bool_decide (domain = "Time")); reflexivity.
Qed.

(** X4: a value-defined instance records the converted reorganization
    energy, takes its cutoff time from the [cutoff-time] entry of the bag and
    from the maximum of the grid when the entry is absent, and holds no
    temperature; neither [T] nor [cortime] is needed to build it. *)
Theorem value_defined_bookkeeping units ax p v reorg :
  p_ftype p = Some "Value-defined" -> p_reorg p = Some reorg ->
  length v = ta_length ax ->
  exists cf,
    CorrelationFunction_init kB_intK iu_energy units ax p (Some v) "Time"
    = Ok cf
    /\ cf !! "lamb" = Some (PFloat (iu_energy reorg units))
    /\ cf !! "cutoff_time"
       = Some (PFloat (default (ta_tmax ax) (p_cutoff_time p)))
    /\ cf !! "T" = None.
Proof.
  intros Hf Hr Hlen.
  rewrite (value_defined_built _ _ _ _ _ _ _ Hf Hr Hlen).
  eexists. split; [reflexivity|]. unfold validated.
  split; [attrs; reflexivity|].
  split; [attrs; destruct (p_cutoff_time p); reflexivity|].
  attrs. reflexivity.
Qed.

(** X5: the analytic branches read [T], then [cortime], then [reorg]; the
    [KeyError] names the first of them that is missing. *)
Theorem missing_parameter_order units ax p values domain f :
  p_ftype p = Some f ->
  f = "OverdampedBrownian-HighTemperature" /\ domain = "Time"
    \/ f = "OverdampedBrownian" ->
  (p_T p = None ->
   CorrelationFunction_init kB_intK iu_energy units ax p values domain
   = Raise (KeyError "T"))
  /\ (is_Some (p_T p) -> p_cortime p = None ->
      CorrelationFunction_init kB_intK iu_energy units ax p values domain
      = Raise (KeyError "cortime"))
  /\ (is_Some (p_T p) -> is_Some (p_cortime p) -> p_reorg p = None ->
      CorrelationFunction_init kB_intK iu_energy units ax p values domain
      = Raise (KeyError "reorg")).
Proof.
  intros Hf Hor.
  assert (Hin : f ∈ allowed_types).
  { apply allowed_types_spec. tauto. }
  rewrite (init_dispatch _ _ _ _ _ _ _ _ Hf Hin).
  assert (Hsame : forall self,
            (p_T p = None \/ p_cortime p = None \/ p_reorg p = None) ->
            init_brownian kB_intK iu_energy units ax p self
            = init_high_temperature kB_intK iu_energy units ax p self).
  { intros self Hm. unfold init_brownian, init_high_temperature.
    destruct (p_T p); [|reflexivity].
    destruct (p_cortime p); [|reflexivity].
    destruct (p_reorg p); [|reflexivity].
    destruct Hm as [? | [? | ?]]; discriminate. }
  repeat split.
  - intros HT. destruct Hor as [[-> ->] | ->]; branches;
      rewrite ?Hsame by tauto; unfold init_high_temperature; now rewrite HT.
  - intros [T HT] Htc. destruct Hor as [[-> ->] | ->]; branches;
      rewrite ?Hsame by tauto; unfold init_high_temperature;
      now rewrite HT, Htc.
  - intros [T HT] [tc Htc] Hr. destruct Hor as [[-> ->] | ->]; branches;
      rewrite ?Hsame by tauto; unfold init_high_temperature;
      now rewrite HT, Htc, Hr.
Qed.

(** X6: every constructed instance records the grid (twice), the bag, the
    domain flag, the energy unit current at construction, its type tag and
    the reorganization energy converted from that unit, and starts out not
    composed. *)
Theorem constructed_bookkeeping units ax p values domain cf :
  CorrelationFunction_init kB_intK iu_energy units ax p values domain = Ok cf ->
  cf !! "valueAxis" = Some (PAxis ax)
  /\ cf !! "timeAxis" = Some (PAxis ax)
  /\ cf !! "params" = Some (PDict p)
  /\ cf !! "time_domain" = Some (PBool (bool_decide (domain = "Time")))
  /\ cf !! "is_composed" = Some (PBool false)
  /\ cf !! "energy_units" = Some (PStr units)
  /\ exists f reorg,
       p_ftype p = Some f /\ f ∈ allowed_types
       /\ cf !! "ftype" = Some (PStr f)
       /\ p_reorg p = Some reorg
       /\ cf !! "lamb" = Some (PFloat (iu_energy reorg units)).
Proof.
  intros Hcf. apply init_constructed in Hcf.
  destruct Hcf as [f T tc reorg cc Hf Hor _ _ Hr _ _ | reorg v Hf _ Hr _ _];
    unfold validated;
    (do 6 (split; [attrs; reflexivity|])).
  - exists f, reorg. split; [exact Hf|].
    split; [apply allowed_types_spec; tauto|].
    split; [attrs; reflexivity|]. split; [exact Hr | attrs; reflexivity].
  - eexists _, reorg. split; [exact Hf|].
    split; [apply allowed_types_spec; tauto|].
    split; [attrs; reflexivity|]. split; [exact Hr | attrs; reflexivity].
Qed.

(** X7: the constructor raises nothing but the bare [Exception], the
    [KeyError] of one of the three parameters, [ZeroDivisionError], the
    [OverflowError] of a square in [__matsubara], the [TypeError] of
    [len(None)], and the two messages of the value-defined and the final
    branch; the message of the inner [raise] of the opening block never
    leaves it. *)
Theorem constructor_exception_inventory units ax p values domain e :
  CorrelationFunction_init kB_intK iu_energy units ax p values domain = Raise e ->
  constructor_exception e.
Proof.
  destruct (p_ftype p) as [f|] eqn:Hf.
  2: { unfold CorrelationFunction_init, constructor_exception.
       rewrite check_ftype_missing by exact Hf. intros [= <-]. tauto. }
  destruct (decide (f ∈ allowed_types)) as [Hin|Hin].
  2: { unfold CorrelationFunction_init, constructor_exception.
       rewrite (check_ftype_unknown _ _ _ _ Hf Hin). intros [= <-]. tauto. }
  rewrite (init_dispatch _ _ _ _ _ _ _ _ Hf Hin). cbv zeta.
  assert (HHT : forall self,
            init_high_temperature kB_intK iu_energy units ax p self = Raise e ->
            constructor_exception e).
  { intros self. unfold init_high_temperature, constructor_exception.
    destruct (p_T p); [|intros [= <-]; tauto].
    destruct (p_cortime p); [|intros [= <-]; tauto].
    destruct (p_reorg p); [|intros [= <-]; tauto].
    cbn [getitem mbind result_bind].
    step_div. discriminate. }
  assert (HOB : forall self,
            init_brownian kB_intK iu_energy units ax p self = Raise e ->
            constructor_exception e).
  { intros self. unfold init_brownian, constructor_exception.
    destruct (p_T p); [|intros [= <-]; tauto].
    destruct (p_cortime p); [|intros [= <-]; tauto].
    destruct (p_reorg p); [|intros [= <-]; tauto].
    cbn [getitem mbind result_bind].
    do 3 step_div.
    destruct (__matsubara _ _ _ _) eqn:Hm; cbn [mbind result_bind];
      [discriminate|].
    intros [= <-]. apply matsubara_loop_raise in Hm.
    destruct Hm; subst; tauto. }
  assert (HVD : forall self,
            init_value_defined iu_energy units ax p values self = Raise e ->
            constructor_exception e).
  { intros self. unfold init_value_defined, constructor_exception.
    destruct (p_reorg p); [|intros [= <-]; tauto].
    cbn [getitem mbind result_bind].
    destruct values as [v|]; [|intros [= <-]; tauto].
    destruct (bool_decide _); [discriminate|]. intros [= <-]. tauto. }
  repeat (match goal with
          | |- context [if ?b then _ else _] => destruct b
          end); eauto.
  intros [= <-]. unfold constructor_exception. tauto.
Qed.


End ConstructionExtras2.

(** ** The frequency-domain objects *)

Lemma odd_plus_even d :
  zip_with Cadd (map (fun z => mkC 0 (Im z)) d) (map (fun z => mkC (Re z) 0) d)
  = d.
Proof.
  rewrite zip_with_map_map. rewrite <- (map_id d) at 2. apply map_ext.
  intros [x y]. apply complex_eq; simpl; ring.
Qed.

Lemma constructed_energy_units iu units ax p values domain cf :
  constructed iu units ax p values domain cf ->
  cf !! "energy_units" = Some (PStr units).
Proof. intros []; unfold validated; attrs; reflexivity. Qed.

Section SpectralExtras.
Variable kB_intK : R.
Variable iu_energy : R -> string -> R.
Variable Fourier_transform :
  string -> TimeAxis -> list complex -> FrequencyAxis * list complex.

Lemma init_raise_prelude units axis p e (k : object -> object -> result object) :
  CorrelationFunction_init kB_intK iu_energy units axis p None "Time"
  = Raise e ->
  (self ← check_ftype units p ∅;
   energy_units ← getattr self "energy_units" ≫= as_str;
   cf ← CorrelationFunction_init kB_intK iu_energy energy_units axis p
          None "Time";
   k cf self) = Raise e.
Proof.
  intros Hinit.
  destruct (p_ftype p) as [f|] eqn:Hf.
  2: { rewrite check_ftype_missing by exact Hf.
       unfold CorrelationFunction_init in Hinit.
       rewrite check_ftype_missing in Hinit by exact Hf. exact Hinit. }
  destruct (decide (f ∈ allowed_types)) as [Hin|Hin].
  2: { rewrite (check_ftype_unknown _ _ _ _ Hf Hin).
       unfold CorrelationFunction_init in Hinit.
       rewrite (check_ftype_unknown _ _ _ _ Hf Hin) in Hinit. exact Hinit. }
  rewrite (check_ftype_ok _ _ _ _ Hf Hin). cbn [mbind result_bind].
  attrs. cbn [mbind result_bind as_str]. now rewrite Hinit.
Qed.

(** X9: when the constructor fails on a bag (with no values, in the time
    domain), the three frequency-domain constructors fail with the same
    exception. *)
Theorem transforms_fail_with_constructor units axis p e :
  CorrelationFunction_init kB_intK iu_energy units axis p None "Time"
  = Raise e ->
  FTCorrelationFunction_init kB_intK iu_energy Fourier_transform units axis p
  = Raise e
  /\ OddFTCorrelationFunction_init kB_intK iu_energy Fourier_transform
       units axis p = Raise e
  /\ EvenFTCorrelationFunction_init kB_intK iu_energy Fourier_transform
       units axis p = Raise e.
Proof.
  intros Hinit. repeat split.
  - apply (init_raise_prelude units axis p e
             (fun cf self => store_transform Fourier_transform p cf self) Hinit).
  - apply (init_raise_prelude units axis p e
             (fun cf self =>
                data ← getattr cf "data" ≫= as_array;
                store_transform Fourier_transform p
                  (setattr "data" (PArray (j_mul_arr (numpy_imag data))) cf)
                  self) Hinit).
  - apply (init_raise_prelude units axis p e
             (fun cf self =>
                data ← getattr cf "data" ≫= as_array;
                store_transform Fourier_transform p
                  (setattr "data" (PArray (map RtoC (numpy_real data))) cf)
                  self) Hinit).
Qed.

(** The attributes of a frequency-domain object. *)
Lemma store_transform_attributes p cf self ax d :
  cf !! "axis" = Some (PAxis ax) -> cf !! "data" = Some (PArray d) ->
  store_transform Fourier_transform p cf self
  = Ok (setattr "frequencyAxis"
          (PFreqAxis (fst (Fourier_transform "int" ax d)))
          (setattr "axis" (PFreqAxis (fst (Fourier_transform "int" ax d)))
             (setattr "data" (PArray (snd (Fourier_transform "int" ax d)))
                (setattr "params" (PDict p) self)))).
Proof.
  intros Hax Hd. unfold store_transform, get_Fourier_transform, getattr.
  rewrite Hax, Hd. reflexivity.
Qed.

Lemma full_transform_built units axis p cf d :
  CorrelationFunction_init kB_intK iu_energy units axis p None "Time" = Ok cf ->
  cf !! "data" = Some (PArray d) ->
  exists f,
    p_ftype p = Some f
    /\ FTCorrelationFunction_init kB_intK iu_energy Fourier_transform
         units axis p
       = Ok (setattr "frequencyAxis"
               (PFreqAxis (fst (Fourier_transform "int" axis d)))
               (setattr "axis"
                  (PFreqAxis (fst (Fourier_transform "int" axis d)))
                  (setattr "data"
                     (PArray (snd (Fourier_transform "int" axis d)))
                     (setattr "params" (PDict p)
                        (setattr "energy_units" (PStr units)
                           (setattr "ftype" (PStr f) ∅)))))).
Proof.
  intros Hcf Hd. pose proof (init_constructed _ _ _ _ _ _ _ _ Hcf) as Hc.
  destruct (constructed_ftype _ _ _ _ _ _ _ Hc) as (f & Hf & Hin).
  destruct (constructed_tabulated _ _ _ _ _ _ _ Hc eq_refl) as [Hax _].
  exists f. split; [exact Hf|].
  unfold FTCorrelationFunction_init.
  rewrite (check_ftype_ok _ _ _ _ Hf Hin). cbn [mbind result_bind].
  attrs. cbn [mbind result_bind as_str]. rewrite Hcf.
  cbn [mbind result_bind].
  apply (store_transform_attributes p cf _ axis d Hax Hd).
Qed.

(** X10: the full transform hands the samples to the Fourier transform
    unchanged, under internal units, and stores its samples, its frequency
    grid (as [axis] and as [frequencyAxis]), the bag, the type tag and the
    energy unit. *)
Theorem full_transform units axis p cf d :
  CorrelationFunction_init kB_intK iu_energy units axis p None "Time" = Ok cf ->
  cf !! "data" = Some (PArray d) ->
  exists ft f,
    FTCorrelationFunction_init kB_intK iu_energy Fourier_transform units axis p
    = Ok ft
    /\ ft !! "data" = Some (PArray (snd (Fourier_transform "int" axis d)))
    /\ ft !! "axis" = Some (PFreqAxis (fst (Fourier_transform "int" axis d)))
    /\ ft !! "frequencyAxis" = ft !! "axis"
    /\ ft !! "params" = Some (PDict p)
    /\ p_ftype p = Some f /\ ft !! "ftype" = Some (PStr f)
    /\ ft !! "energy_units" = Some (PStr units).
Proof.
  intros Hcf Hd.
  destruct (full_transform_built units axis p cf d Hcf Hd) as (f & Hf & ->).
  eexists _, f. split; [reflexivity|].
  repeat split; try (attrs; reflexivity). exact Hf.
Qed.

(** X11: with an additive Fourier transform the samples of the full
    transform are the sum of those of the odd and of the even transform. *)
Theorem odd_even_decomposition units axis p cf d :
  CorrelationFunction_init kB_intK iu_energy units axis p None "Time" = Ok cf ->
  cf !! "data" = Some (PArray d) ->
  additive_transform Fourier_transform ->
  exists full odd even sf so se,
    FTCorrelationFunction_init kB_intK iu_energy Fourier_transform units axis p
    = Ok full
    /\ OddFTCorrelationFunction_init kB_intK iu_energy Fourier_transform
         units axis p = Ok odd
    /\ EvenFTCorrelationFunction_init kB_intK iu_energy Fourier_transform
         units axis p = Ok even
    /\ full !! "data" = Some (PArray sf)
    /\ odd !! "data" = Some (PArray so)
    /\ even !! "data" = Some (PArray se)
    /\ sf = zip_with Cadd so se.
Proof.
  intros Hcf Hd Hadd.
  destruct (full_transform_built units axis p cf d Hcf Hd)
    as (f & _ & Hfull).
  assert (Hfd : forall o, Ok o = FTCorrelationFunction_init kB_intK iu_energy
                            Fourier_transform units axis p ->
                o !! "data"
                = Some (PArray (snd (Fourier_transform "int" axis d)))).
  { intros o Ho. rewrite Hfull in Ho. injection Ho as ->. attrs. reflexivity. }
  destruct (FTCorrelationFunction_init kB_intK iu_energy Fourier_transform
              units axis p) as [full|] eqn:Hfull'; [|discriminate].
  specialize (Hfd full eq_refl). clear Hfull.
  destruct (symmetrized_init kB_intK iu_energy Fourier_transform units axis p
              cf d (fun a => j_mul_arr (numpy_imag a)) Hcf Hd)
    as (odd & Hodd & Hod).
  destruct (symmetrized_init kB_intK iu_energy Fourier_transform units axis p
              cf d (fun a => map RtoC (numpy_real a)) Hcf Hd)
    as (even & Heven & Hed).
  exists full, odd, even. eexists _, _, _.
  split; [reflexivity|]. split; [exact Hodd|]. split; [exact Heven|].
  split; [exact Hfd|]. split; [exact Hod|]. split; [exact Hed|].
  rewrite j_mul_imag, real_embedded.
  rewrite <- Hadd by (now rewrite !length_map).
  now rewrite odd_plus_even.
Qed.

(** X12: no frequency-domain object can be built for the value-defined
    type: the constructors call [CorrelationFunction] without values. *)
Theorem value_defined_has_no_transform units axis p :
  p_ftype p = Some "Value-defined" ->
  exists e,
    (e = TypeError "object of type 'NoneType' has no len()"
     \/ e = KeyError "reorg")
    /\ FTCorrelationFunction_init kB_intK iu_energy Fourier_transform
         units axis p = Raise e
    /\ OddFTCorrelationFunction_init kB_intK iu_energy Fourier_transform
         units axis p = Raise e
    /\ EvenFTCorrelationFunction_init kB_intK iu_energy Fourier_transform
         units axis p = Raise e.
Proof.
  intros Hf.
  assert (Hinit : exists e,
            (e = TypeError "object of type 'NoneType' has no len()"
             \/ e = KeyError "reorg")
            /\ CorrelationFunction_init kB_intK iu_energy units axis p None
                 "Time" = Raise e).
  { rewrite (init_dispatch _ _ _ _ _ _ _ _ Hf)
      by (apply allowed_types_spec; tauto).
    branches. unfold init_value_defined.
    destruct (p_reorg p); eexists; (split; [|reflexivity]); tauto. }
  destruct Hinit as (e & He & Hinit). exists e. split; [exact He|].
  pose proof (init_raise_prelude units axis p e) as Hp.
  repeat split.
  - apply (Hp (fun cf self => store_transform Fourier_transform p cf self)
              Hinit).
  - apply (Hp (fun cf self =>
                 data ← getattr cf "data" ≫= as_array;
                 store_transform Fourier_transform p
                   (setattr "data" (PArray (j_mul_arr (numpy_imag data))) cf)
                   self) Hinit).
  - apply (Hp (fun cf self =>
                 data ← getattr cf "data" ≫= as_array;
                 store_transform Fourier_transform p
                   (setattr "data" (PArray (map RtoC (numpy_real data))) cf)
                   self) Hinit).
Qed.

(** X13: on an instance of an analytic type built in the time domain, the
    three getters return the transforms of the instance's own samples
    (of their odd and even part). *)
Theorem getters_transform_own_samples units ax p values cf f d :
  p_ftype p = Some f -> analytic f ->
  CorrelationFunction_init kB_intK iu_energy units ax p values "Time" = Ok cf ->
  cf !! "data" = Some (PArray d) ->
  (exists ft,
     get_FTCorrelationFunction kB_intK iu_energy Fourier_transform cf = Ok ft
     /\ ft !! "data" = Some (PArray (snd (Fourier_transform "int" ax d))))
  /\ (exists ft,
        get_OddFTCorrelationFunction kB_intK iu_energy Fourier_transform cf
        = Ok ft
        /\ ft !! "data"
           = Some (PArray (snd (Fourier_transform "int" ax
                                  (map (fun z => mkC 0 (Im z)) d)))))
  /\ (exists ft,
        get_EvenFTCorrelationFunction kB_intK iu_energy Fourier_transform cf
        = Ok ft
        /\ ft !! "data"
           = Some (PArray (snd (Fourier_transform "int" ax
                                  (map (fun z => mkC (Re z) 0) d))))).
Proof.
  intros Hf Ha Hcf Hd.
  rewrite (init_analytic_values _ _ _ _ _ values None _ _ Hf Ha) in Hcf.
  pose proof (init_constructed _ _ _ _ _ _ _ _ Hcf) as Hc.
  destruct (constructed_tabulated _ _ _ _ _ _ _ Hc eq_refl) as [Hax _].
  pose proof (constructed_params _ _ _ _ _ _ _ Hc) as Hp.
  pose proof (constructed_energy_units _ _ _ _ _ _ _ Hc) as Hu.
  unfold get_FTCorrelationFunction, get_OddFTCorrelationFunction,
    get_EvenFTCorrelationFunction, getattr.
  rewrite Hu, Hax, Hp. cbn [mbind result_bind as_str as_axis as_dict].
  repeat split.
  - destruct (full_transform_built units ax p cf d Hcf Hd) as (f' & _ & ->).
    eexists. split; [reflexivity | attrs; reflexivity].
  - destruct (symmetrized_init kB_intK iu_energy Fourier_transform units ax p
                cf d (fun a => j_mul_arr (numpy_imag a)) Hcf Hd)
      as (ft & Hft & Hdata).
    exists ft. split; [exact Hft|]. now rewrite Hdata, j_mul_imag.
  - destruct (symmetrized_init kB_intK iu_energy Fourier_transform units ax p
                cf d (fun a => map RtoC (numpy_real a)) Hcf Hd)
      as (ft & Hft & Hdata).
    exists ft. split; [exact Hft|]. now rewrite Hdata, real_embedded.
Qed.

End SpectralExtras.

(** Additivity of the discrete transform. *)
Lemma Csum_imap_add (a : list complex) : forall b (f : nat -> complex -> complex),
  (forall n x y, f n (Cadd x y) = Cadd (f n x) (f n y)) ->
  length a = length b ->
  Csum (imap f (zip_with Cadd a b))
  = Cadd (Csum (imap f a)) (Csum (imap f b)).
Proof.
  induction a as [|x a IH]; intros [|y b] f Hf Hlen; try discriminate.
  - simpl. apply complex_eq; simpl; ring.
  - cbn [zip_with]. rewrite !imap_cons. cbn [Csum foldr].
    change (foldr Cadd C0 ?l) with (Csum l).
    rewrite (IH b (f ∘ S)); [| intros n u v; apply Hf | simpl in Hlen; lia].
    rewrite Hf. apply complex_eq; simpl; ring.
Qed.

Lemma dft_coefficient_add a b k :
  length a = length b ->
  dft_coefficient (zip_with Cadd a b) k
  = Cadd (dft_coefficient a k) (dft_coefficient b k).
Proof.
  intros Hlen. unfold dft_coefficient.
  rewrite length_zip_with, <- Hlen, Nat.min_id.
  apply Csum_imap_add; [|exact Hlen].
  intros n x y. apply complex_eq; simpl; ring.
Qed.

Lemma discrete_Fourier_transform_additive :
  additive_transform discrete_Fourier_transform.
Proof.
  intros units ax a b Hlen. unfold discrete_Fourier_transform. cbn [snd].
  rewrite length_zip_with, <- Hlen, Nat.min_id.
  rewrite (map_ext _ (fun k => Cadd (dft_coefficient a k) (dft_coefficient b k)))
    by (intros k; now apply dft_coefficient_add).
  rewrite <- (zip_with_map_map Cadd (dft_coefficient a) (dft_coefficient b)).
  set (u := map (dft_coefficient a) (seq 0 (length a))).
  set (v := map (dft_coefficient b) (seq 0 (length a))).
  assert (Huv : length u = length v) by (unfold u, v; now rewrite !length_map).
  unfold fftshift. rewrite length_zip_with, <- Huv, Nat.min_id.
  rewrite zip_with_drop, zip_with_take.
  rewrite <- zip_with_app by (rewrite !length_drop; lia).
  set (u' := drop _ u ++ take _ u). set (v' := drop _ v ++ take _ v).
  clearbody u' v'. clear. revert v'.
  induction u' as [|x u' IH]; intros [|y v']; simpl; try reflexivity.
  rewrite IH. f_equal. apply complex_eq; simpl; ring.
Qed.

(** ** The integration transforms and [copy] *)

Lemma real_arr_complex sr : forall si,
  length sr = length si -> numpy_real (arr_complex sr si) = sr.
Proof.
  intros si. rewrite arr_complex_pair. unfold numpy_real. revert si.
  induction sr as [|x sr IH]; intros [|y si] H; try discriminate; simpl.
  - reflexivity.
  - f_equal. apply IH. simpl in H. lia.
Qed.

Lemma imag_arr_complex sr : forall si,
  length sr = length si -> numpy_imag (arr_complex sr si) = si.
Proof.
  intros si. rewrite arr_complex_pair. unfold numpy_imag. revert si.
  induction sr as [|x sr IH]; intros [|y si] H; try discriminate; simpl.
  - reflexivity.
  - f_equal. apply IH. simpl in H. lia.
Qed.

Lemma purely_real_imag d : purely_real d -> map Im d = replicate (length d) 0.
Proof.
  induction 1 as [|z d Hz _ IH]; simpl; [reflexivity|]. now rewrite Hz, IH.
Qed.

Lemma purely_real_zip sr n : purely_real (zip_with mkC sr (replicate n 0)).
Proof.
  unfold purely_real. revert n.
  induction sr as [|x sr IH]; intros [|n]; simpl; constructor.
  - reflexivity.
  - apply IH.
Qed.

Section IntegrationExtras.
Variable spline : Type.
Variable UnivariateSpline : list R -> list R -> R -> result spline.
Variable antiderivative : spline -> spline.
Variable spline_call : spline -> list R -> list R.

(** X14: when a spline evaluates to one value per abscissa, [c2g] returns
    [g] exactly when [c2h] returns some [h] on which [h2g] returns [g]. *)
Theorem c2g_is_h2g_after_c2h timeaxis coft g :
  (forall s x, length (spline_call s x) = length x) ->
  c2g UnivariateSpline antiderivative spline_call timeaxis coft = Ok g
  <-> exists h,
        c2h UnivariateSpline antiderivative spline_call timeaxis coft = Ok h
        /\ h2g UnivariateSpline antiderivative spline_call timeaxis h = Ok g.
Proof.
  intros Hlen. unfold h2g, c2g, c2h.
  set (x := ta_data timeaxis).
  destruct (UnivariateSpline x (numpy_real coft) 0) as [s1|e1];
    cbn [mbind result_bind].
  2: { split; [discriminate | intros (h & [=] & _)]. }
  destruct (UnivariateSpline x (numpy_imag coft) 0) as [s3|e3];
    cbn [mbind result_bind].
  2: { split; [|intros (h & [=] & _)].
       destruct (UnivariateSpline x _ 0); discriminate. }
  assert (Hl : length (spline_call (antiderivative s1) x)
               = length (spline_call (antiderivative s3) x))
    by (now rewrite !Hlen).
  split.
  - intros Hg. eexists. split; [reflexivity|].
    rewrite (real_arr_complex _ _ Hl), (imag_arr_complex _ _ Hl). exact Hg.
  - intros (h & [= <-] & Hg).
    rewrite (real_arr_complex _ _ Hl), (imag_arr_complex _ _ Hl) in Hg.
    exact Hg.
Qed.

(** X15: when a spline evaluates to one value per abscissa, the results of
    [c2h] and [c2g] have the length of the grid. *)
Theorem integration_transforms_length timeaxis coft :
  (forall s x, length (spline_call s x) = length x) ->
  (forall h,
     c2h UnivariateSpline antiderivative spline_call timeaxis coft = Ok h ->
     length h = ta_length timeaxis)
  /\ (forall g,
        c2g UnivariateSpline antiderivative spline_call timeaxis coft = Ok g ->
        length g = ta_length timeaxis).
Proof.
  intros Hlen. unfold c2h, c2g, ta_length. split.
  - intros h.
    destruct (UnivariateSpline _ (numpy_real coft) 0) as [s1|];
      cbn [mbind result_bind]; [|discriminate].
    destruct (UnivariateSpline _ (numpy_imag coft) 0) as [s3|];
      cbn [mbind result_bind]; [|discriminate].
    intros [= <-]. rewrite arr_complex_pair, length_zip_with, !Hlen. lia.
  - intros g.
    destruct (UnivariateSpline _ (numpy_real coft) 0) as [s1|];
      cbn [mbind result_bind]; [|discriminate].
    destruct (UnivariateSpline _ (spline_call (antiderivative s1) _) 0)
      as [s2|]; cbn [mbind result_bind]; [|discriminate].
    destruct (UnivariateSpline _ (numpy_imag coft) 0) as [s3|];
      cbn [mbind result_bind]; [|discriminate].
    destruct (UnivariateSpline _ (spline_call (antiderivative s3) _) 0)
      as [s4|]; cbn [mbind result_bind]; [|discriminate].
    intros [= <-]. rewrite arr_complex_pair, length_zip_with, !Hlen. lia.
Qed.

Lemma c2h_zero_pass timeaxis n :
  spline_integral UnivariateSpline antiderivative spline_call
    (ta_data timeaxis) (replicate n 0) = Ok (replicate n 0) ->
  c2h UnivariateSpline antiderivative spline_call timeaxis (replicate n C0)
  = Ok (replicate n C0).
Proof.
  intros Hzero. unfold c2h, numpy_real, numpy_imag. rewrite !map_replicate.
  cbn [Re Im C0 RtoC]. unfold spline_integral in Hzero.
  destruct (UnivariateSpline (ta_data timeaxis) (replicate n 0) 0) as [s|];
    [|discriminate].
  cbn [mbind result_bind] in *. injection Hzero as ->.
  now rewrite arr_complex_pair, zip_with_replicate_zero.
Qed.

(** X16: when a pass maps the zero sequence to the zero sequence, [c2h]
    and [h2g] map the zero sample sequence to itself. *)
Theorem c2h_zero_samples timeaxis n :
  spline_integral UnivariateSpline antiderivative spline_call
    (ta_data timeaxis) (replicate n 0) = Ok (replicate n 0) ->
  c2h UnivariateSpline antiderivative spline_call timeaxis (replicate n C0)
  = Ok (replicate n C0)
  /\ h2g UnivariateSpline antiderivative spline_call timeaxis (replicate n C0)
     = Ok (replicate n C0).
Proof.
  intros Hzero. unfold h2g. split; apply c2h_zero_pass; exact Hzero.
Qed.

(** X17: under the same condition, real samples have real transforms
    [c2h] and [c2g]. *)
Theorem real_samples_integrate_to_real timeaxis coft :
  purely_real coft ->
  spline_integral UnivariateSpline antiderivative spline_call
    (ta_data timeaxis) (replicate (length coft) 0)
  = Ok (replicate (length coft) 0) ->
  (forall h,
     c2h UnivariateSpline antiderivative spline_call timeaxis coft = Ok h ->
     purely_real h)
  /\ (forall g,
        c2g UnivariateSpline antiderivative spline_call timeaxis coft = Ok g ->
        purely_real g).
Proof.
  intros Hreal Hzero. unfold c2h, c2g, numpy_imag.
  rewrite (purely_real_imag _ Hreal). unfold spline_integral in Hzero.
  destruct (UnivariateSpline (ta_data timeaxis) (replicate (length coft) 0) 0)
    as [s0|] eqn:Hs0; [|discriminate].
  cbn [mbind result_bind] in Hzero.
  assert (Hz : spline_call (antiderivative s0) (ta_data timeaxis)
               = replicate (length coft) 0) by congruence.
  clear Hzero.
  split.
  - intros h.
    destruct (UnivariateSpline _ (numpy_real coft) 0) as [s1|];
      cbn [mbind result_bind]; [|intros [=]].
    rewrite Hz. intros [= <-]. rewrite arr_complex_pair.
    apply purely_real_zip.
  - intros g.
    destruct (UnivariateSpline _ (numpy_real coft) 0) as [s1|];
      cbn [mbind result_bind]; [|intros [=]].
    destruct (UnivariateSpline _ (spline_call (antiderivative s1) _) 0)
      as [s2|]; cbn [mbind result_bind]; [|intros [=]].
    rewrite Hz, Hs0. cbn [mbind result_bind]. rewrite Hz.
    intros [= <-]. rewrite arr_complex_pair. apply purely_real_zip.
Qed.

End IntegrationExtras.

Section CopyExtras.
Variable kB_intK : R.
Variable iu_energy : R -> string -> R.

(** X18: [copy] is the constructor run on the recorded grid and bag, with
    no values, in the time domain and under the energy unit current at the
    call; on an analytic instance built in the time domain, under the unit
    of its construction, it returns an equal instance. *)
Theorem copy_rebuilds_from_parameters units ax p values domain cf :
  CorrelationFunction_init kB_intK iu_energy units ax p values domain = Ok cf ->
  (forall units',
     copy kB_intK iu_energy units' cf
     = CorrelationFunction_init kB_intK iu_energy units' ax p None "Time")
  /\ (forall f, p_ftype p = Some f -> analytic f -> domain = "Time" ->
      copy kB_intK iu_energy units cf = Ok cf).
Proof.
  intros Hcf. split.
  - intros units'. apply (copy_rebuilds _ _ _ _ _ _ _ _ _ Hcf).
  - intros f Hf Ha ->. apply (copy_analytic _ _ _ _ _ _ _ _ Hf Ha Hcf).
Qed.

(** X19: [copy] does not keep the domain: the copy of a general Brownian
    instance built outside the time domain is a time-domain instance with
    the same other attributes. *)
Theorem copy_forgets_domain units ax p values domain cf :
  p_ftype p = Some "OverdampedBrownian" -> domain <> "Time" ->
  CorrelationFunction_init kB_intK iu_energy units ax p values domain = Ok cf ->
  exists cf',
    copy kB_intK iu_energy units cf = Ok cf'
    /\ cf !! "time_domain" = Some (PBool false)
    /\ cf' !! "time_domain" = Some (PBool true)
    /\ forall name, name <> "time_domain" -> cf' !! name = cf !! name.
Proof.
  intros Hf Hd Hcf. rewrite (copy_rebuilds _ _ _ _ _ _ _ _ _ Hcf).
  rewrite (init_analytic_values _ _ _ _ _ None values "Time" _ Hf
             (or_intror eq_refl)).
  destruct (brownian_domain_change kB_intK iu_energy units ax p values domain
              "Time" cf Hf Hcf) as (cf' & Hcf' & Htd & Hrest).
  exists cf'. split; [exact Hcf'|]. split; [|split; [exact Htd | exact Hrest]].
  pose proof (init_constructed _ _ _ _ _ _ _ _ Hcf) as Hc.
  rewrite (constructed_time_domain _ _ _ _ _ _ _ Hc).
  now rewrite bool_decide_eq_false_2 by exact Hd.
Qed.

End CopyExtras.

(** ** Further worked instances *)

Lemma sample_shape_mismatch :
  CorrelationFunction_init kB_sample iu_energy_sample "1/cm" grid3
    params_value_defined (Some [C0]) "Time"
  = Raise (Exception (Some "Incompatible values")).
Proof.
  apply (shape_mismatch_raises kB_sample iu_energy_sample "1/cm" grid3
           params_value_defined [C0] 20); try reflexivity.
  simpl. discriminate.
Qed.

Lemma sample_no_temperature :
  CorrelationFunction_init kB_sample iu_energy_sample "1/cm" grid3
    params_no_temperature None "Time" = Raise (KeyError "T").
Proof.
  rewrite (init_dispatch kB_sample iu_energy_sample "1/cm" grid3
             params_no_temperature None "Time"
             "OverdampedBrownian-HighTemperature" eq_refl)
    by (apply allowed_types_spec; tauto).
  branches. reflexivity.
Qed.

Lemma sample_brownian_frequency :
  exists b,
    CorrelationFunction_init kB_sample iu_energy_sample "1/cm" grid3
      params_brownian None "Frequency" = Ok b.
Proof.
  eexists.
  apply (brownian_built kB_sample iu_energy_sample "1/cm" grid3
           params_brownian None "Frequency" 300 100 20); try reflexivity.
  apply (sample_in_range 10). lia.
Qed.

Lemma cubic_call_length (c : cubic) (x : list R) :
  length (cubic_call c x) = length x.
Proof. unfold cubic_call. apply length_map. Qed.

Lemma cubic_c2h_zero :
  c2h cubic_fit cubic_antiderivative cubic_call grid4 (replicate 4 C0)
  = Ok (replicate 4 C0).
Proof.
  apply c2h_zero_pass, cubic_integral_zero. reflexivity.
Qed.

Lemma constructed_sample_count_witness :
  exists c d,
    CorrelationFunction_init kB_sample iu_energy_sample "1/cm" grid3
      params_value_defined (Some three_values) "Time" = Ok c
    /\ c !! "data" = Some (PArray d) /\ length d = 3%nat.
Proof.
  destruct sample_value_defined_built as (c & Hc).
  destruct (constructed_sample_count kB_sample iu_energy_sample _ _ _ _ _ c Hc)
    as (d & Hd & Hlen).
  exists c, d. repeat split; assumption.
Defined.

Lemma brownian_accepts_every_domain_witness :
  exists b b',
    CorrelationFunction_init kB_sample iu_energy_sample "1/cm" grid3
      params_brownian None "Time" = Ok b
    /\ CorrelationFunction_init kB_sample iu_energy_sample "1/cm" grid3
         params_brownian None "Frequency" = Ok b'
    /\ b' !! "data" = b !! "data".
Proof.
  destruct sample_brownian_built as (b & Hb & _).
  destruct (brownian_accepts_every_domain kB_sample iu_energy_sample "1/cm"
              grid3 params_brownian None "Frequency" b eq_refl Hb)
    as (b' & Hb' & _ & Hsame).
  exists b, b'. split; [exact Hb|]. split; [exact Hb'|].
  apply Hsame. discriminate.
Defined.

Lemma analytic_construction_ignores_values_witness :
  CorrelationFunction_init kB_sample iu_energy_sample "1/cm" grid3
    params_high_temperature (Some three_values) "Time"
  = CorrelationFunction_init kB_sample iu_energy_sample "1/cm" grid3
      params_high_temperature None "Time".
Proof.
  apply (analytic_construction_ignores_values kB_sample iu_energy_sample
           "1/cm" grid3 params_high_temperature (Some three_values) None
           "Time" "OverdampedBrownian-HighTemperature" eq_refl).
  now left.
Defined.

Lemma value_defined_bookkeeping_witness :
  exists c,
    CorrelationFunction_init kB_sample iu_energy_sample "1/cm" grid3
      params_value_defined (Some three_values) "Time" = Ok c
    /\ c !! "cutoff_time" = Some (PFloat 2).
Proof.
  destruct (value_defined_bookkeeping kB_sample iu_energy_sample "1/cm" grid3
              params_value_defined three_values 20 eq_refl eq_refl eq_refl)
    as (c & Hc & _ & Hcut & _).
  exists c. split; [exact Hc | exact Hcut].
Defined.

Lemma missing_parameter_order_witness :
  CorrelationFunction_init kB_sample iu_energy_sample "1/cm" grid3
    params_no_temperature None "Time" = Raise (KeyError "T").
Proof.
  apply (proj1 (missing_parameter_order kB_sample iu_energy_sample "1/cm"
                  grid3 params_no_temperature None "Time"
                  "OverdampedBrownian-HighTemperature" eq_refl
                  (or_introl (conj eq_refl eq_refl)))).
  reflexivity.
Defined.

Lemma constructed_bookkeeping_witness :
  exists a,
    CorrelationFunction_init kB_sample iu_energy_sample "1/cm" grid3
      params_high_temperature None "Time" = Ok a
    /\ a !! "is_composed" = Some (PBool false)
    /\ a !! "energy_units" = Some (PStr "1/cm").
Proof.
  destruct sample_high_temperature_built as (a & Ha & _).
  destruct (constructed_bookkeeping kB_sample iu_energy_sample _ _ _ _ _ a Ha)
    as (_ & _ & _ & _ & Hc & Hu & _).
  exists a. repeat split; assumption.
Defined.

Lemma constructor_exception_inventory_witness :
  constructor_exception (Exception (Some "Incompatible values")).
Proof.
  apply (constructor_exception_inventory kB_sample iu_energy_sample "1/cm"
           grid3 params_value_defined (Some [C0]) "Time" _
           sample_shape_mismatch).
Defined.


Lemma transforms_fail_with_constructor_witness :
  OddFTCorrelationFunction_init kB_sample iu_energy_sample
    discrete_Fourier_transform "1/cm" grid3 params_no_temperature
  = Raise (KeyError "T").
Proof.
  apply (transforms_fail_with_constructor kB_sample iu_energy_sample
           discrete_Fourier_transform "1/cm" grid3 params_no_temperature _
           sample_no_temperature).
Defined.

Lemma full_transform_witness :
  exists ft s,
    FTCorrelationFunction_init kB_sample iu_energy_sample
      discrete_Fourier_transform "1/cm" grid3 params_no_coupling = Ok ft
    /\ ft !! "data" = Some (PArray s)
    /\ ft !! "frequencyAxis" = ft !! "axis".
Proof.
  destruct (full_transform kB_sample iu_energy_sample
              discrete_Fourier_transform "1/cm" grid3 params_no_coupling _ _
              no_coupling_built ltac:(attrs; reflexivity))
    as (ft & f & Hft & Hd & _ & Hax & _).
  exists ft. eexists. split; [exact Hft|]. split; [exact Hd | exact Hax].
Defined.

Lemma odd_even_decomposition_witness :
  exists full odd even sf so se,
    FTCorrelationFunction_init kB_sample iu_energy_sample
      discrete_Fourier_transform "1/cm" grid3 params_no_coupling = Ok full
    /\ OddFTCorrelationFunction_init kB_sample iu_energy_sample
         discrete_Fourier_transform "1/cm" grid3 params_no_coupling = Ok odd
    /\ EvenFTCorrelationFunction_init kB_sample iu_energy_sample
         discrete_Fourier_transform "1/cm" grid3 params_no_coupling = Ok even
    /\ full !! "data" = Some (PArray sf)
    /\ odd !! "data" = Some (PArray so)
    /\ even !! "data" = Some (PArray se)
    /\ sf = zip_with Cadd so se.
Proof.
  apply (odd_even_decomposition kB_sample iu_energy_sample
           discrete_Fourier_transform "1/cm" grid3 params_no_coupling _ _
           no_coupling_built ltac:(attrs; reflexivity)
           discrete_Fourier_transform_additive).
Defined.

Lemma value_defined_has_no_transform_witness :
  exists e,
    FTCorrelationFunction_init kB_sample iu_energy_sample
      discrete_Fourier_transform "1/cm" grid3 params_value_defined = Raise e.
Proof.
  destruct (value_defined_has_no_transform kB_sample iu_energy_sample
              discrete_Fourier_transform "1/cm" grid3 params_value_defined
              eq_refl) as (e & _ & He & _).
  exists e. exact He.
Defined.

Lemma getters_transform_own_samples_witness :
  exists cf ft,
    CorrelationFunction_init kB_sample iu_energy_sample "1/cm" grid3
      params_no_coupling None "Time" = Ok cf
    /\ get_FTCorrelationFunction kB_sample iu_energy_sample
         discrete_Fourier_transform cf = Ok ft.
Proof.
  destruct (getters_transform_own_samples kB_sample iu_energy_sample
              discrete_Fourier_transform "1/cm" grid3 params_no_coupling None
              _ "OverdampedBrownian-HighTemperature" _ eq_refl
              (or_introl eq_refl) no_coupling_built
              ltac:(attrs; reflexivity))
    as ((ft & Hft & _) & _).
  eexists _, ft. split; [exact no_coupling_built | exact Hft].
Defined.

Lemma c2g_is_h2g_after_c2h_witness :
  c2g cubic_fit cubic_antiderivative cubic_call grid4 (replicate 4 C0)
  = Ok (replicate 4 C0).
Proof.
  apply (c2g_is_h2g_after_c2h cubic cubic_fit cubic_antiderivative cubic_call
           grid4 (replicate 4 C0) (replicate 4 C0) cubic_call_length).
  exists (replicate 4 C0). split; exact cubic_c2h_zero.
Defined.

Lemma integration_transforms_length_witness :
  length (replicate 4 C0) = ta_length grid4.
Proof.
  apply (proj1 (integration_transforms_length cubic cubic_fit
                  cubic_antiderivative cubic_call grid4 (replicate 4 C0)
                  cubic_call_length) _ cubic_c2h_zero).
Defined.

Lemma c2h_zero_samples_witness :
  h2g cubic_fit cubic_antiderivative cubic_call grid4 (replicate 4 C0)
  = Ok (replicate 4 C0).
Proof.
  apply (c2h_zero_samples cubic cubic_fit cubic_antiderivative cubic_call
           grid4 4).
  apply cubic_integral_zero. reflexivity.
Defined.

Lemma real_samples_integrate_to_real_witness :
  purely_real (replicate 4 C0).
Proof.
  apply (proj1 (real_samples_integrate_to_real cubic cubic_fit
                  cubic_antiderivative cubic_call grid4 (replicate 4 C0)
                  ltac:(repeat constructor)
                  (cubic_integral_zero [0; 1; 2; 3] eq_refl))
           _ cubic_c2h_zero).
Defined.

Lemma copy_rebuilds_from_parameters_witness :
  exists a,
    CorrelationFunction_init kB_sample iu_energy_sample "1/cm" grid3
      params_high_temperature None "Time" = Ok a
    /\ copy kB_sample iu_energy_sample "1/cm" a = Ok a.
Proof.
  destruct sample_high_temperature_built as (a & Ha & _).
  exists a. split; [exact Ha|].
  apply (proj2 (copy_rebuilds_from_parameters kB_sample iu_energy_sample
                  _ _ _ _ _ a Ha)
           "OverdampedBrownian-HighTemperature" eq_refl (or_introl eq_refl)
           eq_refl).
Defined.

Lemma copy_forgets_domain_witness :
  exists b b',
    CorrelationFunction_init kB_sample iu_energy_sample "1/cm" grid3
      params_brownian None "Frequency" = Ok b
    /\ copy kB_sample iu_energy_sample "1/cm" b = Ok b'
    /\ b !! "time_domain" = Some (PBool false)
    /\ b' !! "time_domain" = Some (PBool true).
Proof.
  destruct sample_brownian_frequency as (b & Hb).
  destruct (copy_forgets_domain kB_sample iu_energy_sample "1/cm" grid3
              params_brownian None "Frequency" b eq_refl
              ltac:(discriminate) Hb)
    as (b' & Hcopy & Htd & Htd' & _).
  exists b, b'. repeat split; assumption.
Defined.
